(** * Market Gap Hunter: a shallow embedding of the backend and its properties

    The development follows the three source files of the backend:
    - [cache_manager.py]   : module [CacheManager]
    - [history_manager.py] : module [HistoryManager]
    - [main.py]            : module [Main] ([analyze_market], [autocomplete])

    Python builtins the code relies on ([sorted], [max], slices, [str]
    methods) are embedded once in module [Py].  Floating point numbers are
    kept behind the interface [PyFloat]; every statement below holds for any
    implementation of it, and [QFloat] is an exact rational implementation
    used to run the definitions. *)

From Stdlib Require Import ZArith QArith List String Ascii Bool Lia.
From stdpp Require Import base option list sorting gmap strings.

Local Open Scope string_scope.
Local Open Scope list_scope.
Local Open Scope Z_scope.

(* ================================================================== *)
(** ** Python floats *)

(** The operations on [float] that the backend performs. *)
Class PyFloat := {
  float : Type;
  (** [float(n)], also the implicit promotion of an [int] operand *)
  float_of_int : Z -> float;
  (** [x + y] *)
  float_add : float -> float -> float;
  (** [x * y] *)
  float_mul : float -> float -> float;
  (** [x / y] for a divisor that is not zero *)
  float_div : float -> float -> float;
  (** [round(x, ndigits)] *)
  float_round : float -> Z -> float;
  (** [x < y] *)
  float_ltb : float -> float -> bool;
  (** [pd.isna(x)] *)
  float_isna : float -> bool;
}.

(** [x > y] is evaluated as [y < x]. *)
Definition float_gtb `{PyFloat} (x y : float) : bool := float_ltb y x.

(** The order properties of [<] on floats that are not NaN: a strict weak
    order.  Only the results about sorting assume them. *)
Class PyFloatOrder (F : PyFloat) : Prop := {
  float_ltb_irrefl : forall x : float, float_ltb x x = false;
  float_ltb_trans : forall x y z : float,
      float_ltb x y = true -> float_ltb y z = true -> float_ltb x z = true;
  float_ltb_negtrans : forall x y z : float,
      float_ltb x y = false -> float_ltb y z = false -> float_ltb x z = false;
}.

(* ================================================================== *)
(** ** Python builtins *)

Module Py.

(** Exceptions raised by the builtins used below. *)
Inductive exception :=
| ValueError
| IndexError
| KeyError
| TypeError
| ZeroDivisionError
| HTTPException (status_code : Z).

(** The outcome of a call that may raise. *)
Inductive result (A : Type) :=
| Ok (a : A)
| Raise (e : exception).
Arguments Ok {A} a.
Arguments Raise {A} e.

(** [result] is a monad; the stdpp notation [x ← m; k] sequences calls
    and propagates the first exception. *)
#[global] Instance result_ret : MRet result := fun A a => Ok a.
#[global] Instance result_bind : MBind result := fun A B k m =>
  match m with
  | Ok a => k a
  | Raise e => Raise e
  end.

(** A read that can raise, such as [d[k]] or [float(d[k])]: [v] is what is
    read, [None] when there is nothing to read and [e] is raised. *)
Definition read {A} (e : exception) (v : option A) : result A :=
  match v with
  | Some a => Ok a
  | None => Raise e
  end.

(** [x / n] for a float or an int [x] already promoted and an int [n]:
    true division, [ZeroDivisionError] when [n] is zero. *)
Definition truediv `{PyFloat} (x : float) (n : Z) : result float :=
  if n =? 0 then Raise ZeroDivisionError
  else Ok (float_div x (float_of_int n)).

Section Builtins.
Context {A : Type}.

(** [l[-n:]] for [n > 0]: the last [n] items, all of [l] when it is shorter. *)
Definition slice_last (n : nat) (l : list A) : list A :=
  drop (length l - n) l.

(** [l[:n]] *)
Definition slice_first (n : nat) (l : list A) : list A := take n l.

(** [l[:n]] for any int [n]: a negative [n] counts from the end, so that
    [l[:-k]] leaves the last [k] items out. *)
Definition slice_to (n : Z) (l : list A) : list A :=
  if 0 <=? n then take (Z.to_nat n) l
  else take (length l - Z.to_nat (- n)) l.

(** [l[0]] *)
Definition first_item (l : list A) : result A :=
  match l with
  | [] => Raise IndexError
  | x :: _ => Ok x
  end.

(** [l[-1]] *)
Definition last_item (l : list A) : result A :=
  match last l with
  | None => Raise IndexError
  | Some x => Ok x
  end.

(** One step of a stable insertion: [x] comes from the left of everything
    in [l], so it moves right only past items strictly smaller than it. *)
Fixpoint insert_stable (ltb : A -> A -> bool) (x : A) (l : list A) : list A :=
  match l with
  | [] => [x]
  | y :: l' => if ltb y x then y :: insert_stable ltb x l' else x :: y :: l'
  end.

(** [sorted(l)]: a stable ascending sort that only ever asks [<]. *)
Definition sorted (ltb : A -> A -> bool) (l : list A) : list A :=
  foldr (insert_stable ltb) [] l.

(** [sorted(l, reverse=True)]: CPython reverses the list, sorts it
    ascending and stably, and reverses the outcome, so that equal items
    keep their input order. *)
Definition sorted_reverse (ltb : A -> A -> bool) (l : list A) : list A :=
  reverse (sorted ltb (reverse l)).

(** [max(l, key=key)]: the first item whose key no later item exceeds;
    [ValueError] on an empty sequence. *)
Definition max_by (key : A -> nat) (l : list A) : result A :=
  match l with
  | [] => Raise ValueError
  | x :: l' =>
      Ok (fold_left (fun best y => if (key best <? key y)%nat then y else best) l' x)
  end.

End Builtins.

(** *** [str] methods *)

(** [s.lower()] on ASCII text: the letters A to Z are mapped, other bytes
    are left as they are. *)
Definition lower_ascii (c : ascii) : ascii :=
  let n := nat_of_ascii c in
  if ((65 <=? n) && (n <=? 90))%nat then ascii_of_nat (n + 32) else c.

Fixpoint lower (s : string) : string :=
  match s with
  | EmptyString => EmptyString
  | String c s' => String (lower_ascii c) (lower s')
  end.

(** [s.startswith(p)] *)
Fixpoint startswith (s p : string) {struct p} : bool :=
  match p, s with
  | EmptyString, _ => true
  | String _ _, EmptyString => false
  | String c p', String d s' => Ascii.eqb c d && startswith s' p'
  end.

(** [p in s] *)
Fixpoint contains (p s : string) : bool :=
  startswith s p ||
  match s with
  | EmptyString => false
  | String _ s' => contains p s'
  end.

(** [s.endswith(suffix)]: one of the tails of [s] is [suffix]. *)
Fixpoint endswith (s suffix : string) : bool :=
  String.eqb s suffix ||
  match s with
  | EmptyString => false
  | String _ s' => endswith s' suffix
  end.

(** [s.split(sep)] for a one-character separator: never empty, one more
    segment than there are separators in [s]. *)
Fixpoint split (sep : ascii) (s : string) : list string :=
  match s with
  | EmptyString => [EmptyString]
  | String c s' =>
      if Ascii.eqb c sep then EmptyString :: split sep s'
      else match split sep s' with
           | segment :: segments => String c segment :: segments
           | [] => [String c EmptyString]
           end
  end.

End Py.

Import Py.

(* ================================================================== *)
(** ** cache_manager.py *)

Module CacheManager.

(** A file of the cache directory: either it parses to the record written
    by [set], or reading it raises (the [except] branch of [get]). *)
Inductive cache_file (V D : Type) :=
| Corrupt
| Entry (timestamp : Z) (params : list (string * V)) (data : D).
Arguments Corrupt {V D}.
Arguments Entry {V D} timestamp params data.

Section CacheManager.
(** [V]: the values of the keyword arguments; [D]: the cached payloads. *)
Context {V D : Type}.
(** [json.dumps(_, sort_keys=True)] on a list of pairs, and
    [hashlib.sha256(_.encode()).hexdigest()]: library functions. *)
Variable json_dumps : list (string * V) -> string.
Variable sha256_hexdigest : string -> string.
(** [v1 < v2] on values: tuple comparison reaches it when two keys are equal. *)
Variable value_ltb : V -> V -> bool.
(** [self.ttl], in microseconds like the timestamps. *)
Variable ttl : Z.

(** [kwargs]: a dict, listed in insertion order. *)
Local Abbreviation kwargs := (list (string * V)).

(** [(k1, v1) < (k2, v2)]: decided by the first component that differs. *)
Definition item_ltb (a b : string * V) : bool :=
  if String.eqb (fst a) (fst b) then value_ltb (snd a) (snd b)
  else String.ltb (fst a) (fst b).

(** The same comparison when the keys differ: by the keys alone. *)
Definition key_ltb (a b : string * V) : bool := String.ltb (fst a) (fst b).

Definition _generate_key (kw : kwargs) : string :=
  let sorted_params := Py.sorted item_ltb kw in
  let param_string := json_dumps sorted_params in
  sha256_hexdigest param_string.

(** The directory [self.cache_dir], by file name. *)
Local Abbreviation cache_dir := (gmap string (cache_file V D)).

Definition cache_path (cache_key : string) : string := cache_key ++ ".json".

(** [get] at time [now]: the value returned and the directory afterwards. *)
Definition get (now : Z) (dir : cache_dir) (kw : kwargs) : option D * cache_dir :=
  let cache_key := _generate_key kw in
  let cache_file := cache_path cache_key in
  match dir !! cache_file with
  | None => (None, dir)
  | Some Corrupt => (None, dir)
  | Some (Entry cached_time _ data) =>
      if (ttl <? now - cached_time)%Z then (None, delete cache_file dir)
      else (Some data, dir)
  end.

(** [set] at time [now]. *)
Definition set (now : Z) (dir : cache_dir) (data : D) (kw : kwargs) : cache_dir :=
  let cache_key := _generate_key kw in
  let cache_file := cache_path cache_key in
  <[cache_file := Entry now kw data]> dir.

(** [self.cache_dir.glob("*.json")] lists the files whose name ends in
    [.json]. *)
Definition is_json (name : string) : bool := Py.endswith name ".json".

(** [clear_expired]: the loop over the listed files.  [clock name] is the
    reading of [datetime.now()] when the file [name] is examined.  A file
    that does not parse is passed over. *)
Definition clear_expired (clock : string -> Z) (dir : cache_dir) : nat * cache_dir :=
  map_fold
    (fun name file '(cleared, dir) =>
       if is_json name then
         match file with
         | Entry cached_time _ _ =>
             if (ttl <? clock name - cached_time)%Z
             then (S cleared, delete name dir)
             else (cleared, dir)
         | Corrupt => (cleared, dir)
         end
       else (cleared, dir))
    (0%nat, dir) dir.

(** [clear_all]: the loop over the listed files. *)
Definition clear_all (dir : cache_dir) : nat * cache_dir :=
  map_fold
    (fun name _ '(cleared, dir) =>
       if is_json name then (S cleared, delete name dir) else (cleared, dir))
    (0%nat, dir) dir.

End CacheManager.
End CacheManager.

(* ================================================================== *)
(** ** The labels of an analysis *)

(** The four verdicts of [analyze_market], in the order of its tests:
    uncontested market, high potential, balanced market, saturated market
    (red ocean). *)
Inductive Verdict := Uncontested | HighPotential | Balanced | Saturated.

(** The three growth labels: booming, growing, stable. *)
Inductive GrowthStatus := Booming | Growing | Stable.

(* ================================================================== *)
(** ** history_manager.py *)

Module HistoryManager.

Section HistoryManager.
Context {F : PyFloat}.

Record Location := { loc_lat : float; loc_lon : float }.

(** The ["result"] field of an entry: what [add_analysis] retains of the
    result it is given. *)
Record ResultSummary := {
  rs_score : float;
  rs_verdict : Verdict;
  rs_supply_count : nat;
  rs_demand_count : nat;
  rs_growth_status : GrowthStatus;
  rs_construction_count : nat;
}.

Record HistoryEntry := {
  he_timestamp : Z;
  he_location : Location;
  he_business_type : string;
  he_radius : Z;
  he_result : ResultSummary;
}.

(** The file [self.history_file]: a saved list, or something that
    [json.load] cannot read. *)
Inductive history_file :=
| Unreadable
| Saved (history : list HistoryEntry).

Definition _load_history (file : history_file) : list HistoryEntry :=
  match file with
  | Saved history => history
  | Unreadable => []
  end.

Definition _save_history (history : list HistoryEntry) : history_file :=
  Saved history.

(** [add_analysis] at time [now]; [result] is the summary of the result
    dict ([result.get] of the six retained fields). *)
Definition add_analysis (now : Z) (file : history_file)
    (lat lon : float) (business_type : string) (radius : Z)
    (result : ResultSummary) : history_file :=
  let history := _load_history file in
  let entry := {|
    he_timestamp := now;
    he_location := {| loc_lat := float_round lat 6; loc_lon := float_round lon 6 |};
    he_business_type := business_type;
    he_radius := radius;
    he_result := result |} in
  let history := history ++ [entry] in
  let history :=
    if (100 <? length history)%nat then Py.slice_last 100 history else history in
  _save_history history.

(** What [get_statistics] returns.  On an empty history the dict has no
    ["date_range"] key, and ["average_score"] is the int [0]. *)
Record Statistics := {
  total_analyses : nat;
  business_types : list (string * nat);
  average_score : float;
  most_analyzed_type : option string;
  date_range : option (option Z * option Z);
}.

(** [d[k] = d.get(k, 0) + 1] on a dict listed in insertion order: a key
    already present keeps its place. *)
Fixpoint dict_incr (k : string) (d : list (string * nat)) : list (string * nat) :=
  match d with
  | [] => [(k, 1%nat)]
  | (k', n) :: d' =>
      if String.eqb k' k then (k', (n + 1)%nat) :: d' else (k', n) :: dict_incr k d'
  end.

(** The loop of [get_statistics] over the entries. *)
Definition tally (history : list HistoryEntry) : list (string * nat) * float :=
  fold_left
    (fun '(business_types, total_score) entry =>
       (dict_incr (he_business_type entry) business_types,
        float_add total_score (rs_score (he_result entry))))
    history ([], float_of_int 0).

Definition get_statistics (file : history_file) : Py.result Statistics :=
  let history := _load_history file in
  match history with
  | [] =>
      Ok {| total_analyses := 0;
            business_types := [];
            average_score := float_of_int 0;
            most_analyzed_type := None;
            date_range := None |}
  | _ :: _ =>
      let '(business_types, total_score) := tally history in
      most_analyzed ←
        match business_types with
        | [] => Ok None
        | _ :: _ => item ← Py.max_by snd business_types; Ok (Some (fst item))
        end;
      average ← Py.truediv total_score (Z.of_nat (length history));
      first ←
        match history with
        | [] => Ok None
        | _ :: _ => e ← Py.first_item history; Ok (Some (he_timestamp e))
        end;
      last ←
        match history with
        | [] => Ok None
        | _ :: _ => e ← Py.last_item history; Ok (Some (he_timestamp e))
        end;
      Ok {| total_analyses := length history;
            business_types := business_types;
            average_score := float_round average 2;
            most_analyzed_type := most_analyzed;
            date_range := Some (first, last) |}
  end.

(** [a["timestamp"] < b["timestamp"]]: the timestamps are the ISO strings
    of [datetime.isoformat], which compare as the instants they denote. *)
Definition timestamp_ltb (a b : HistoryEntry) : bool :=
  he_timestamp a <? he_timestamp b.

(** [get_history]; [business_type] is [None] or a string, and filters
    only when it is a non-empty string. *)
Definition get_history (limit : Z) (business_type : option string)
    (file : history_file) : list HistoryEntry :=
  let history := _load_history file in
  let history :=
    match business_type with
    | Some t =>
        if negb (String.eqb t "")
        then filter (fun h => he_business_type h = t) history
        else history
    | None => history
    end in
  Py.slice_to limit (Py.sorted_reverse timestamp_ltb history).

Section LocationHistory.
(** [a - b], [abs(a)] and [a <= b] on floats. *)
Variable float_sub : float -> float -> float.
Variable float_abs : float -> float.
Variable float_leb : float -> float -> bool.

(** The test of the loop of [get_location_history]. *)
Definition within_tolerance (lat lon tolerance : float) (entry : HistoryEntry) : bool :=
  let entry_lat := loc_lat (he_location entry) in
  let entry_lon := loc_lon (he_location entry) in
  float_leb (float_abs (float_sub entry_lat lat)) tolerance
  && float_leb (float_abs (float_sub entry_lon lon)) tolerance.

Definition get_location_history (lat lon tolerance : float) (file : history_file)
    : list HistoryEntry :=
  let history := _load_history file in
  let location_history :=
    filter (fun entry => within_tolerance lat lon tolerance entry = true) history in
  Py.sorted_reverse timestamp_ltb location_history.

End LocationHistory.

(** [clear_history]: the number of entries dropped and the file afterwards. *)
Definition clear_history (file : history_file) : nat * history_file :=
  let history := _load_history file in
  let count := length history in
  (count, _save_history []).

End HistoryManager.
End HistoryManager.

(* ================================================================== *)
(** ** main.py *)

Module Main.

(** The demand groups, the keys of [demand_breakdown]. *)
Inductive Category := Office | Students | Residential | Transport.

(** [demand_breakdown]: a dict with exactly these four keys. *)
Record DemandBreakdown := {
  bd_office : nat;
  bd_students : nat;
  bd_residential : nat;
  bd_transport : nat;
}.

(** [demand_breakdown[group] += 1] *)
Definition breakdown_incr (group : Category) (b : DemandBreakdown) : DemandBreakdown :=
  match group with
  | Office => {| bd_office := bd_office b + 1; bd_students := bd_students b;
                 bd_residential := bd_residential b; bd_transport := bd_transport b |}
  | Students => {| bd_office := bd_office b; bd_students := bd_students b + 1;
                   bd_residential := bd_residential b; bd_transport := bd_transport b |}
  | Residential => {| bd_office := bd_office b; bd_students := bd_students b;
                      bd_residential := bd_residential b + 1; bd_transport := bd_transport b |}
  | Transport => {| bd_office := bd_office b; bd_students := bd_students b;
                    bd_residential := bd_residential b; bd_transport := bd_transport b + 1 |}
  end%nat.

Definition breakdown_zero : DemandBreakdown :=
  {| bd_office := 0; bd_students := 0; bd_residential := 0; bd_transport := 0 |}.

(** The sum of the four counts. *)
Definition breakdown_total (b : DemandBreakdown) : nat :=
  (bd_office b + bd_students b + bd_residential b + bd_transport b)%nat.

Definition BUSINESS_MAPPINGS : list string :=
  ["Cafe"; "Restaurant"; "Bar/Pub"; "Convenience Store"; "Pharmacy";
   "Gym/Fitness"; "Coworking Space"].

(** [demand_tags_map], as the lookup [val in demand_tags_map] followed by
    [demand_tags_map[val]]. *)
Definition demand_tags_map (val : string) : option Category :=
  if String.eqb val "office" then Some Office
  else if String.eqb val "school" then Some Students
  else if String.eqb val "university" then Some Students
  else if String.eqb val "college" then Some Students
  else if String.eqb val "apartments" then Some Residential
  else if String.eqb val "condominium" then Some Residential
  else if String.eqb val "residential" then Some Residential
  else if String.eqb val "station" then Some Transport
  else None.

(** The inner loop over the columns of one row, left at the first column
    whose value is a key of [demand_tags_map].  [cells] lists
    [str(row.get(col))] in column order. *)
Fixpoint assign_group (cells : list string) : option Category :=
  match cells with
  | [] => None
  | val :: cells' =>
      match demand_tags_map val with
      | Some group => Some group
      | None => assign_group cells'
      end
  end.

(** One turn of the outer loop: the row's group, [Residential] when no
    column matched. *)
Definition classify_row (cells : list string) (b : DemandBreakdown) : DemandBreakdown :=
  match assign_group cells with
  | Some group => breakdown_incr group b
  | None => breakdown_incr Residential b
  end.

(** [DataFrame.sample(n)]: [n] rows drawn without replacement.  The draws
    are read from [rng], the state of the random generator. *)
Fixpoint sample {A} (rng : nat -> nat) (n : nat) (rows : list A) : list A :=
  match n with
  | O => []
  | S n' =>
      match rows with
      | [] => []
      | r :: _ =>
          let i := (rng n' mod length rows)%nat in
          nth i rows r :: sample rng n' (delete i rows)
      end
  end.

Section Analyze.
Context {F : PyFloat}.

(** The validated request body. *)
Record AnalyzeRequest := {
  req_lat : float;
  req_lon : float;
  req_business_type : string;
  req_radius : Z;
}.

(** The coordinates [(p.y, p.x)] of a row's centroid; [None] when reading
    them raises (an empty geometry; a failure of [geometry.centroid] on the
    whole frame shows as [None] on every row). *)
Definition Centroid : Type := option (float * float).

(** A row of [supply_gdf]: its name ([None] when missing or NaN) and its
    centroid. *)
Record SupplyRow := {
  sr_name : option string;
  sr_centroid : Centroid;
}.

(** A row of [demand_gdf]: its cells as strings, in column order, and its
    centroid. *)
Record DemandRow := {
  dr_cells : list string;
  dr_centroid : Centroid;
}.

Record SupplyPoint := { sp_lat : float; sp_lon : float; sp_name : string }.
Record DemandPoint := { dp_lat : float; dp_lon : float }.

(** What the three calls of [ox.features_from_point] answer ([None]: the
    call raised), with the centroids of their rows, and the random generator
    of [sample]. *)
Record GeoData := {
  supply_gdf : option (list SupplyRow);
  demand_gdf : option (list DemandRow);
  cons_gdf : option nat;
  rng : nat -> nat;
}.

Record AnalysisResult := {
  score : float;
  verdict : Verdict;
  verdict_color : string;
  supply_count : nat;
  demand_count : nat;
  demand_breakdown : DemandBreakdown;
  growth_status : GrowthStatus;
  construction_count : nat;
  supply_points : list SupplyPoint;
  demand_points : list DemandPoint;
}.

(** The [for] loop of section A from the rows still to visit: the list
    [supply_points] as appended to so far, and whether the loop ran to its
    end.  It does not when a centroid cannot be read: the exception leaves
    the [try] block, and the points appended before it stay in the list. *)
Fixpoint supply_loop (rows : list SupplyRow) (supply_points : list SupplyPoint)
    : list SupplyPoint * bool :=
  match rows with
  | [] => (supply_points, true)
  | row :: rows =>
      let name := default "Unknown" (sr_name row) in
      match sr_centroid row with
      | None => (supply_points, false)
      | Some (y, x) =>
          if negb (float_isna y) && negb (float_isna x)
          then supply_loop rows
                 (supply_points ++ [{| sp_lat := y; sp_lon := x; sp_name := name |}])
          else supply_loop rows supply_points
      end
  end.

(** A. Fetch Supply: [supply_points] and [num_supply].  [num_supply] is
    assigned after the loop, so it stays [0] when the loop is left by an
    exception. *)
Definition fetch_supply (gdf : option (list SupplyRow)) : list SupplyPoint * nat :=
  match gdf with
  | None => ([], 0%nat)
  | Some [] => ([], 0%nat)
  | Some rows =>
      let '(supply_points, completed) := supply_loop rows [] in
      let num_supply := if completed then length supply_points else 0%nat in
      (supply_points, num_supply)
  end.

(** B. Fetch Demand & Breakdown: [demand_points] and [demand_breakdown].
    The counts are incremented in place by the loop over all rows;
    [demand_points] is assigned by the list comprehension over the sampled
    rows, and stays [[]] when a centroid among them cannot be read. *)
Definition fetch_demand (rng : nat -> nat) (gdf : option (list DemandRow))
    : list DemandPoint * DemandBreakdown :=
  match gdf with
  | None => ([], breakdown_zero)
  | Some [] => ([], breakdown_zero)
  | Some rows =>
      let demand_breakdown :=
        fold_left (fun b row => classify_row (dr_cells row) b) rows breakdown_zero in
      let rows := if (1000 <? length rows)%nat then sample rng 1000 rows else rows in
      let demand_points :=
        match mapM dr_centroid rows with
        | Some centroids =>
            map (fun p : float * float => {| dp_lat := p.1; dp_lon := p.2 |}) centroids
        | None => []
        end in
      (demand_points, demand_breakdown)
  end.

(** C. Future Growth: [growth_status] and [cons_count]. *)
Definition future_growth (gdf : option nat) : GrowthStatus * nat :=
  match gdf with
  | None => (Stable, 0%nat)
  | Some cons_count =>
      if (5 <? cons_count)%nat then (Booming, cons_count)
      else if (2 <? cons_count)%nat then (Growing, cons_count)
      else (Stable, cons_count)
  end.

(** D. Calculate Score: [score], [verdict] and [color]. *)
Definition calculate_score (num_supply num_demand : nat)
    : Py.result (float * Verdict * string) :=
  let divisor := if (0 <? num_supply)%nat then num_supply else 1%nat in
  q ← Py.truediv (float_of_int (Z.of_nat num_demand)) (Z.of_nat divisor);
  let score := float_round q 2 in
  if (num_supply =? 0)%nat && (0 <? num_demand)%nat then
    Ok (score, Uncontested, "#2980b9")
  else if float_gtb score (float_of_int 5) then
    Ok (score, HighPotential, "#27ae60")
  else if float_gtb score (float_of_int 2) then
    Ok (score, Balanced, "#f39c12")
  else
    Ok (score, Saturated, "#c0392b").

(** Sections A to D: the result dict built on a cache miss. *)
Definition analyze_compute (geo : GeoData) : Py.result AnalysisResult :=
  let '(supply_points, num_supply) := fetch_supply (supply_gdf geo) in
  let '(demand_points, demand_breakdown) := fetch_demand (rng geo) (demand_gdf geo) in
  let '(growth_status, cons_count) := future_growth (cons_gdf geo) in
  let num_demand := length demand_points in
  '(score, verdict, color) ← calculate_score num_supply num_demand;
  Ok {| score := score;
        verdict := verdict;
        verdict_color := color;
        supply_count := num_supply;
        demand_count := num_demand;
        demand_breakdown := demand_breakdown;
        growth_status := growth_status;
        construction_count := cons_count;
        supply_points := supply_points;
        demand_points := demand_points |}.

(** The values of [cache_key_params]. *)
Inductive ParamValue :=
| PFloat (x : float)
| PStr (s : string)
| PInt (n : Z).

(** The fields of the result that [add_analysis] reads with [result.get]. *)
Definition summary (r : AnalysisResult) : HistoryManager.ResultSummary :=
  {| HistoryManager.rs_score := score r;
     HistoryManager.rs_verdict := verdict r;
     HistoryManager.rs_supply_count := supply_count r;
     HistoryManager.rs_demand_count := demand_count r;
     HistoryManager.rs_growth_status := growth_status r;
     HistoryManager.rs_construction_count := construction_count r |}.

Section Endpoint.
(** The library functions and settings of the module-level [cache]. *)
Variable json_dumps : list (string * ParamValue) -> string.
Variable sha256_hexdigest : string -> string.
Variable value_ltb : ParamValue -> ParamValue -> bool.
Variable ttl : Z.

(** The module-level stores: [cache] and [history]. *)
Record Stores := {
  cache : gmap string (CacheManager.cache_file ParamValue AnalysisResult);
  history : HistoryManager.history_file;
}.

(** The three readings of [datetime.now()] during one request: in
    [cache.get], in [cache.set] and in [history.add_analysis]. *)
Record Clock := { now_get : Z; now_set : Z; now_add : Z }.

(** [POST /analyze]: the response and the stores afterwards. *)
Definition analyze_market (clock : Clock) (req : AnalyzeRequest) (geo : GeoData)
    (st : Stores) : Py.result (AnalysisResult * Stores) :=
  let cache_key_params :=
    [("lat", PFloat (float_round (req_lat req) 4));
     ("lon", PFloat (float_round (req_lon req) 4));
     ("business_type", PStr (req_business_type req));
     ("radius", PInt (req_radius req))] in
  let '(cached_result, cache1) :=
    CacheManager.get json_dumps sha256_hexdigest value_ltb ttl
      (now_get clock) (cache st) cache_key_params in
  match cached_result with
  | Some cached_result => Ok (cached_result, {| cache := cache1; history := history st |})
  | None =>
      if negb (bool_decide (req_business_type req ∈ BUSINESS_MAPPINGS)) then
        Raise (HTTPException 400)
      else
        result ← analyze_compute geo;
        let cache2 :=
          CacheManager.set json_dumps sha256_hexdigest value_ltb
            (now_set clock) cache1 result cache_key_params in
        let history2 :=
          HistoryManager.add_analysis (now_add clock) (history st)
            (req_lat req) (req_lon req) (req_business_type req) (req_radius req)
            (summary result) in
        Ok (result, {| cache := cache2; history := history2 |})
  end.

End Endpoint.

Section Validation.
(** [a <= b] on floats. *)
Variable float_leb : float -> float -> bool.

(** The validators of [AnalyzeRequest]. *)
Definition validate_lat (v : float) : Py.result float :=
  if negb (float_leb (float_of_int (-90)) v && float_leb v (float_of_int 90))
  then Raise ValueError else Ok v.

Definition validate_lon (v : float) : Py.result float :=
  if negb (float_leb (float_of_int (-180)) v && float_leb v (float_of_int 180))
  then Raise ValueError else Ok v.

Definition validate_radius (v : Z) : Py.result Z :=
  if negb ((100 <=? v) && (v <=? 5000)) then Raise ValueError else Ok v.

Definition validate_business_type (v : string) : Py.result string :=
  if negb (bool_decide (v ∈ BUSINESS_MAPPINGS)) then Raise ValueError else Ok v.

(** The construction of an [AnalyzeRequest] from the fields of the request
    body; [radius] defaults to 1000, and a default is not validated. *)
Definition parse_request (lat lon : float) (business_type : string)
    (radius : option Z) : Py.result AnalyzeRequest :=
  lat ← validate_lat lat;
  lon ← validate_lon lon;
  business_type ← validate_business_type business_type;
  radius ← match radius with
           | Some v => validate_radius v
           | None => Ok 1000
           end;
  Ok {| req_lat := lat; req_lon := lon;
        req_business_type := business_type; req_radius := radius |}.

End Validation.
End Analyze.

(** An entry of [priority_map]: a score, or a nested table by type. *)
Inductive Priority :=
| Flat (points : Z)
| ByType (table : list (string * Z)).

(** [k in d] and [d[k]] on a dict literal. *)
Fixpoint dict_get {B} (d : list (string * B)) (k : string) : option B :=
  match d with
  | [] => None
  | (k', v) :: d' => if String.eqb k' k then Some v else dict_get d' k
  end.

Definition priority_map : list (string * Priority) :=
  [("amenity", Flat 100);
   ("shop", Flat 95);
   ("tourism", Flat 90);
   ("leisure", Flat 85);
   ("building", Flat 80);
   ("highway", Flat 70);
   ("place", ByType
      [("neighbourhood", 60); ("suburb", 55); ("quarter", 58);
       ("city_block", 62); ("hamlet", 50); ("village", 45); ("town", 40);
       ("city", 35); ("state", 10); ("country", 5)]);
   ("boundary", Flat 20)].

(** The score by class and type, before the bonuses. *)
Definition class_score (place_class place_type : string) : Z :=
  match dict_get priority_map place_class with
  | Some (ByType table) => default 30 (dict_get table place_type)
  | Some (Flat points) => points
  | None => 40
  end.

Section Autocomplete.
Context {F : PyFloat}.
(** [str.lower]: the case mapping of the Unicode database, a library
    function; [Py.lower] implements it on ASCII text. *)
Variable lower : string -> string.

(** The bonus of the [if]/[elif] chain on the name; [0] when no branch
    is taken and the score is left as it is. *)
Definition name_bonus (display_name query : string) : Z :=
  let display_name_lower := lower display_name in
  let query_lower := lower query in
  if Py.startswith display_name_lower query_lower then 30
  else if Py.contains query_lower
            (lower (default "" (head (Py.split "," display_name_lower)))) then 20
  else if Py.contains query_lower display_name_lower then 10
  else 0.

(** An item of the Nominatim answer.  [place_type] and [place_class] are
    [item.get("type", "")] and [item.get("class", "")], [address_country]
    is [item.get("address", {}).get("country")].  The other reads can
    raise, and are [None] when they do: [display_name] is
    [item["display_name"]] (no such key), [item_lat] and [item_lon] are
    [float(item["lat"])] and [float(item["lon"])] (no such key, or no
    number), [importance] is [float(item.get("importance", 0))] (no
    number; it is the first read that can raise, so an item that is no
    dict at all behaves as one with [importance] unreadable). *)
Record SearchItem := {
  display_name : option string;
  item_lat : option float;
  item_lon : option float;
  place_type : string;
  place_class : string;
  importance : option float;
  address_country : option string;
}.

Record ScoredResult := {
  sr_display_name : string;
  sr_lat : float;
  sr_lon : float;
  sr_score : float;
  sr_type : string;
  sr_class : string;
}.

Record Suggestion := {
  sg_display_name : string;
  sg_lat : float;
  sg_lon : float;
}.

(** The truth value of an optional string. *)
Definition truthy (s : option string) : bool :=
  match s with
  | Some s => negb (String.eqb s "")
  | None => false
  end.

(** The two [continue] tests at the head of the loop body: whether the
    item is skipped.  The first test reads [item["display_name"]], and only
    behind a truthy [admin_level]. *)
Definition skipped (item : SearchItem) : Py.result bool :=
  country_only ←
    (if String.eqb (place_class item) "boundary"
        && String.eqb (place_type item) "administrative"
     then
       let admin_level := address_country item in
       if truthy admin_level then
         display_name ← Py.read KeyError (display_name item);
         Ok (length (Py.split "," display_name) <=? 1)%nat
       else Ok false
     else Ok false);
  if country_only : bool then Ok true
  else if bool_decide (place_class item ∈ ["natural"; "waterway"])
          && bool_decide (place_type item ∈ ["sea"; "ocean"; "continent"])
  then Ok true
  else Ok false.

(** The score of an item that is not skipped, from its importance and its
    display name as read. *)
Definition relevance (query : string) (item : SearchItem)
    (importance : float) (display_name : string) : float :=
  let score := class_score (place_class item) (place_type item) in
  let score := float_add (float_of_int score)
                 (float_mul importance (float_of_int 20)) in
  let bonus := name_bonus display_name query in
  if bonus =? 0 then score else float_add score (float_of_int bonus).

(** The body of the loop over [data] for one item: [None] when the item is
    skipped by a [continue], the dict appended to [scored_results]
    otherwise, an exception when a read raises on the way. *)
Definition loop_body (query : string) (item : SearchItem)
    : Py.result (option ScoredResult) :=
  importance ← Py.read ValueError (importance item);
  skip ← skipped item;
  if skip : bool then Ok None
  else
    display_name ← Py.read KeyError (display_name item);
    let score := relevance query item importance display_name in
    lat ← Py.read ValueError (item_lat item);
    lon ← Py.read ValueError (item_lon item);
    Ok (Some {| sr_display_name := display_name;
                sr_lat := lat;
                sr_lon := lon;
                sr_score := score;
                sr_type := place_type item;
                sr_class := place_class item |}).

(** The loop over [data]: the list [scored_results], or the exception that
    ends the loop. *)
Fixpoint score_results (query : string) (data : list SearchItem)
    : Py.result (list ScoredResult) :=
  match data with
  | [] => Ok []
  | item :: data =>
      appended ← loop_body query item;
      scored_results ← score_results query data;
      Ok (match appended with
          | Some r => r :: scored_results
          | None => scored_results
          end)
  end.

(** The key comparison of [scored_results.sort]. *)
Definition score_ltb (a b : ScoredResult) : bool :=
  float_ltb (sr_score a) (sr_score b).

Definition strip (r : ScoredResult) : Suggestion :=
  {| sg_display_name := sr_display_name r; sg_lat := sr_lat r; sg_lon := sr_lon r |}.

(** [GET /autocomplete], given the status code and the parsed body of the
    Nominatim response.  An exception raised in the loop is caught by the
    [except] of the function, which answers [[]]. *)
Definition autocomplete (query : string) (status_code : Z) (data : list SearchItem)
    : list Suggestion :=
  if negb (status_code =? 200) then []
  else
    match score_results query data with
    | Ok scored_results =>
        let scored_results := Py.sorted_reverse score_ltb scored_results in
        map strip (Py.slice_first 8 scored_results)
    | Raise _ => []
    end.

End Autocomplete.
End Main.

(* ================================================================== *)
(** ** An exact implementation of the float interface *)

Module QFloat.

(** [round(x, ndigits)] on a rational, for [ndigits >= 0]: to the nearest
    multiple of [10^-ndigits], a tie going to the even one. *)
Definition round (x : Q) (ndigits : Z) : Q :=
  let scale := 10 ^ ndigits in
  let scaled := Qnum x * scale in
  let den := Z.pos (Qden x) in
  let floor := scaled / den in
  let twice_rem := 2 * (scaled mod den) in
  let nearest :=
    if twice_rem <? den then floor
    else if den <? twice_rem then floor + 1
    else if Z.even floor then floor
    else floor + 1 in
  Qred (nearest # Z.to_pos scale).

Definition ltb (x y : Q) : bool :=
  match (x ?= y)%Q with
  | Lt => true
  | _ => false
  end.

Definition leb (x y : Q) : bool := Qle_bool x y.

#[export] Instance instance : PyFloat := {|
  float := Q;
  float_of_int := inject_Z;
  float_add x y := Qred (x + y);
  float_mul x y := Qred (x * y);
  float_div x y := Qred (x / y);
  float_round := round;
  float_ltb := ltb;
  float_isna _ := false;
|}.

End QFloat.

(* ================================================================== *)
(** ** The specification's formulas *)

Module Spec.
Section Spec.
Context {F : PyFloat}.
Import Main.

(** The score as the specification writes it. *)
Definition spec_score (supply_count demand_count : nat) : float :=
  float_round
    (float_div (float_of_int (Z.of_nat demand_count))
               (float_of_int (Z.of_nat (Nat.max supply_count 1))))
    2.

(** The verdict as the specification writes it, in its precedence order. *)
Definition spec_verdict (supply_count demand_count : nat) : Verdict :=
  if bool_decide (supply_count = 0%nat /\ (0 < demand_count)%nat) then Uncontested
  else if float_gtb (spec_score supply_count demand_count) (float_of_int 5) then HighPotential
  else if float_gtb (spec_score supply_count demand_count) (float_of_int 2) then Balanced
  else Saturated.

(** The display color of each verdict. *)
Definition color_of (v : Verdict) : string :=
  match v with
  | Uncontested => "#2980b9"
  | HighPotential => "#27ae60"
  | Balanced => "#f39c12"
  | Saturated => "#c0392b"
  end.

(** The number of rows the demand fetch delivered, none when it failed. *)
Definition raw_demand_count (geo : GeoData) : nat :=
  match demand_gdf geo with
  | Some rows => length rows
  | None => 0%nat
  end.

(** The growth label of a number of construction sites. *)
Definition spec_growth (construction_count : nat) : GrowthStatus :=
  if bool_decide (5 < construction_count)%nat then Booming
  else if bool_decide (2 < construction_count <= 5)%nat then Growing
  else Stable.

(** *** The history log *)

(** The arguments of one call of [add_analysis] and the time it is made. *)
Record AddCall := {
  call_now : Z;
  call_lat : float;
  call_lon : float;
  call_business_type : string;
  call_radius : Z;
  call_result : HistoryManager.ResultSummary;
}.

(** The entry a call appends. *)
Definition entry_of (c : AddCall) : HistoryManager.HistoryEntry :=
  {| HistoryManager.he_timestamp := call_now c;
     HistoryManager.he_location :=
       {| HistoryManager.loc_lat := float_round (call_lat c) 6;
          HistoryManager.loc_lon := float_round (call_lon c) 6 |};
     HistoryManager.he_business_type := call_business_type c;
     HistoryManager.he_radius := call_radius c;
     HistoryManager.he_result := call_result c |}.

Definition add_call (file : HistoryManager.history_file) (c : AddCall)
    : HistoryManager.history_file :=
  HistoryManager.add_analysis (call_now c) file (call_lat c) (call_lon c)
    (call_business_type c) (call_radius c) (call_result c).

(** A sequence of calls, the first of the list made first. *)
Definition add_calls (file : HistoryManager.history_file) (calls : list AddCall)
    : HistoryManager.history_file :=
  fold_left add_call calls file.

(** How many entries of the log are of business type [t]. *)
Definition count_type (t : string) (history : list HistoryManager.HistoryEntry) : nat :=
  length (filter (fun e => HistoryManager.he_business_type e = t) history).

(** The sum of the scores, added up from the int [0] in log order. *)
Definition sum_scores (history : list HistoryManager.HistoryEntry) : float :=
  fold_left
    (fun total e => float_add total (HistoryManager.rs_score (HistoryManager.he_result e)))
    history (float_of_int 0).

(** *** Text and ranking *)

(** [s] begins with [p]. *)
Definition is_prefix (p s : string) : Prop :=
  exists rest, s = String.append p rest.

(** [p] occurs in [s]. *)
Definition is_substring (p s : string) : Prop :=
  exists before after, s = String.append before (String.append p after).

(** The character [c] occurs in [s]. *)
Definition has_char (c : ascii) (s : string) : Prop :=
  exists before after, s = String.append before (String c after).

(** [segment] is the first [sep]-delimited segment of [s]. *)
Definition is_first_segment (sep : ascii) (segment s : string) : Prop :=
  ~ has_char sep segment /\
  (s = segment \/ exists rest, s = String.append segment (String sep rest)).

#[global] Instance has_char_dec c s : Decision (has_char c s).
Proof.
  induction s as [|d s IH].
  - right. intros ([|b before] & after & H); discriminate H.
  - destruct (decide (c = d)) as [->|Hne].
    + left. by exists EmptyString, s.
    + destruct IH as [IH|IH].
      * left. destruct IH as (before & after & ->).
        by exists (String d before), after.
      * right. intros ([|b before] & after & H); simpl in H.
        -- injection H as -> _. by apply Hne.
        -- injection H as _ ->. apply IH. by exists before, after.
Defined.

(** The display name is a single comma-delimited component. *)
Definition single_component (item : SearchItem) : Prop :=
  match display_name item with
  | Some name => ~ has_char "," name
  | None => False
  end.

(** The address names a country. *)
Definition has_country (item : SearchItem) : Prop :=
  match address_country item with
  | Some country => country <> ""
  | None => False
  end.

(** A class or a type that denotes a sea, an ocean or a continent. *)
Definition sea_ocean_continent (s : string) : Prop :=
  s = "sea" \/ s = "ocean" \/ s = "continent".


(** The candidates to drop, more narrowly: the administrative boundary
    must also carry a country in its address, and a sea, ocean or continent
    is one by its type, under the class natural or waterway. *)
Definition dropped (item : SearchItem) : Prop :=
  (place_class item = "boundary" /\ place_type item = "administrative" /\
   has_country item /\ single_component item)
  \/
  ((place_class item = "natural" \/ place_class item = "waterway") /\
   sea_ocean_continent (place_type item)).

#[global] Instance dropped_dec item : Decision (dropped item).
Proof.
  unfold dropped, has_country, single_component, sea_ocean_continent.
  destruct (address_country item), (display_name item); apply _.
Defined.

(** Every field of the candidate can be read. *)
Definition readable (item : SearchItem) : Prop :=
  is_Some (display_name item) /\ is_Some (item_lat item) /\
  is_Some (item_lon item) /\ is_Some (importance item).

(** The candidates that are to survive the pass, in input order. *)
Definition kept (data : list SearchItem) : list SearchItem :=
  filter (fun item => ~ dropped item) data.

(** [score] is the relevance score of the candidate: the score of its
    class and type, plus [importance * 20], plus one bonus for the name,
    the first that applies of 30, 20 and 10, or none. *)
Definition has_score (lower : string -> string) (query : string)
    (item : SearchItem) (score : float) : Prop :=
  exists importance name segment,
    Main.importance item = Some importance /\
    display_name item = Some name /\
    is_first_segment "," segment (lower name) /\
    let base :=
      float_add (float_of_int (class_score (place_class item) (place_type item)))
                (float_mul importance (float_of_int 20)) in
    (is_prefix (lower query) (lower name) ->
     score = float_add base (float_of_int 30)) /\
    (~ is_prefix (lower query) (lower name) ->
     is_substring (lower query) (lower segment) ->
     score = float_add base (float_of_int 20)) /\
    (~ is_prefix (lower query) (lower name) ->
     ~ is_substring (lower query) (lower segment) ->
     is_substring (lower query) (lower name) ->
     score = float_add base (float_of_int 10)) /\
    (~ is_prefix (lower query) (lower name) ->
     ~ is_substring (lower query) (lower segment) ->
     ~ is_substring (lower query) (lower name) ->
     score = base).

(** Two scores are tied when neither is less than the other. *)
Definition tied (s x : float) : bool :=
  negb (float_ltb x s) && negb (float_ltb s x).

(** The suggestion carries the display name and the coordinates of the
    candidate, and nothing else. *)
Definition suggests (item : SearchItem) (s : Suggestion) : Prop :=
  display_name item = Some (sg_display_name s) /\
  item_lat item = Some (sg_lat s) /\
  item_lon item = Some (sg_lon s).


(** The loop passes over the candidate: its body ends in a [continue]. *)
Definition passed_over (lower : string -> string) (query : string)
    (item : SearchItem) : bool :=
  match loop_body lower query item with
  | Ok None => true
  | _ => false
  end.

(** The score and the record of a candidate whose reads succeed. *)
Definition score_of (lower : string -> string) (query : string)
    (item : SearchItem) : float :=
  relevance lower query item
    (default (float_of_int 0) (importance item)) (default "" (display_name item)).

Definition record_of (lower : string -> string) (query : string)
    (item : SearchItem) : ScoredResult :=
  {| sr_display_name := default "" (display_name item);
     sr_lat := default (float_of_int 0) (item_lat item);
     sr_lon := default (float_of_int 0) (item_lon item);
     sr_score := score_of lower query item;
     sr_type := place_type item;
     sr_class := place_class item |}.

(** *** Requests *)

(** The parameters a request is cached under. *)
Definition cache_key_params (req : AnalyzeRequest) : list (string * ParamValue) :=
  [("lat", PFloat (float_round (req_lat req) 4));
   ("lon", PFloat (float_round (req_lon req) 4));
   ("business_type", PStr (req_business_type req));
   ("radius", PInt (req_radius req))].

(** The history entry of a request answered with [r] at time [now]. *)
Definition logged_entry (now : Z) (req : AnalyzeRequest) (r : AnalysisResult)
    : HistoryManager.HistoryEntry :=
  {| HistoryManager.he_timestamp := now;
     HistoryManager.he_location :=
       {| HistoryManager.loc_lat := float_round (req_lat req) 6;
          HistoryManager.loc_lon := float_round (req_lon req) 6 |};
     HistoryManager.he_business_type := req_business_type req;
     HistoryManager.he_radius := req_radius req;
     HistoryManager.he_result := summary r |}.

(** The group a demand row is counted in. *)
Definition category_of (row : DemandRow) : Category :=
  default Residential (assign_group (dr_cells row)).

(** [demand_breakdown[group]] *)
Definition breakdown_get (group : Category) (b : DemandBreakdown) : nat :=
  match group with
  | Office => bd_office b
  | Students => bd_students b
  | Residential => bd_residential b
  | Transport => bd_transport b
  end.

#[global] Instance category_eq_dec : EqDecision Category.
Proof. solve_decision. Defined.

(** How many rows are counted in [group]. *)
Definition count_group (group : Category) (rows : list DemandRow) : nat :=
  length (filter (fun row => category_of row = group) rows).

(** The point listed for a supply row whose centroid can be read: none
    when a coordinate is NaN. *)
Definition listed (row : SupplyRow) : option SupplyPoint :=
  '(y, x) ← sr_centroid row;
  if negb (float_isna y) && negb (float_isna x)
  then Some {| sp_lat := y; sp_lon := x;
               sp_name := default "Unknown" (sr_name row) |}
  else None.

End Spec.
End Spec.

(* ================================================================== *)
(** ** Concrete requests *)

Module Scenario.
Import Main.
#[local] Existing Instance QFloat.instance.

(** Stand-ins for the two library functions: the cache file is then named
    after the parameter names, in the order they are serialized. *)
Definition json_dumps (params : list (string * ParamValue)) : string :=
  String.concat "," (map fst params).
Definition sha256_hexdigest (s : string) : string := s.
Definition value_ltb (a b : ParamValue) : bool := false.

(** 24 hours, in microseconds. *)
Definition ttl : Z := 24 * 3600 * 1000000.

Definition empty_stores : Stores :=
  {| cache := ∅; history := HistoryManager.Saved [] |}.

Definition noon : Clock := {| now_get := 0; now_set := 1; now_add := 2 |}.

Definition bangkok_cafe : AnalyzeRequest :=
  {| req_lat := 137563 # 10000; req_lon := 1005018 # 10000;
     req_business_type := "Cafe"; req_radius := 1000 |}.

(** The same two parameters, inserted in either order. *)
Definition params_radius_first : list (string * ParamValue) :=
  [("radius", PInt 1000); ("business_type", PStr "Cafe")].
Definition params_radius_last : list (string * ParamValue) :=
  [("business_type", PStr "Cafe"); ("radius", PInt 1000)].

(** A cached payload. *)
Definition cafe_result : AnalysisResult :=
  {| score := 7 # 1; verdict := Uncontested; verdict_color := "#2980b9";
     supply_count := 0; demand_count := 7;
     demand_breakdown := {| bd_office := 7; bd_students := 0;
                            bd_residential := 0; bd_transport := 0 |};
     growth_status := Stable; construction_count := 0;
     supply_points := []; demand_points := [] |}.

(** A demand row whose second column holds the tag value [office]. *)
Definition office_row : DemandRow :=
  {| dr_cells := ["nan"; "office"]; dr_centroid := Some (13 # 1, 100 # 1) |}.

(** A dense district: no competitor, 1001 offices, no construction site. *)
Definition crowded_geo : GeoData :=
  {| supply_gdf := Some [];
     demand_gdf := Some (replicate 1001 office_row);
     cons_gdf := Some 0%nat;
     rng := fun _ => 0%nat |}.

(** The candidates of a search for "Central": a country, a cafe and a
    street, the last two with the same score. *)
Definition thailand : SearchItem :=
  {| display_name := Some "Thailand";
     item_lat := Some (15 # 1); item_lon := Some (101 # 1);
     place_type := "administrative"; place_class := "boundary";
     importance := Some (9 # 10); address_country := Some "Thailand" |}.
Definition central_cafe : SearchItem :=
  {| display_name := Some "Central Cafe, Bangkok";
     item_lat := Some (13 # 1); item_lon := Some (100 # 1);
     place_type := "cafe"; place_class := "amenity";
     importance := Some (0 # 1); address_country := Some "Thailand" |}.
Definition central_road : SearchItem :=
  {| display_name := Some "Central Road, Pattaya";
     item_lat := Some (12 # 1); item_lon := Some (100 # 1);
     place_type := "residential"; place_class := "highway";
     importance := Some (3 # 2); address_country := Some "Thailand" |}.
Definition candidates : list SearchItem :=
  [thailand; central_road; central_cafe].


(** A street whose item carries no [lat]. *)
Definition unplaced_road : SearchItem :=
  {| display_name := Some "Central Lane, Bangkok";
     item_lat := None; item_lon := Some (100 # 1);
     place_type := "residential"; place_class := "highway";
     importance := Some (1 # 10); address_country := Some "Thailand" |}.

(** A request a few metres away from [bangkok_cafe]: the same location
    once rounded to 4 digits. *)
Definition bangkok_cafe_nearby : AnalyzeRequest :=
  {| req_lat := 1375631 # 100000; req_lon := 10050184 # 100000;
     req_business_type := "Cafe"; req_radius := 1000 |}.

(** A later moment of the same day. *)
Definition afternoon : Clock :=
  {| now_get := 3600000000; now_set := 3600000001; now_add := 3600000002 |}.

(** A quiet district: two competitors, one of them without a name, three
    demand rows, a failed construction fetch. *)
Definition quiet_geo : GeoData :=
  {| supply_gdf := Some [ {| sr_name := Some "Bean";
                             sr_centroid := Some (13 # 1, 100 # 1) |};
                          {| sr_name := None;
                             sr_centroid := Some (13 # 1, 100 # 1) |} ];
     demand_gdf := Some [ office_row;
                          {| dr_cells := ["school"; "office"];
                             dr_centroid := Some (13 # 1, 100 # 1) |};
                          {| dr_cells := ["nan"; "yes"];
                             dr_centroid := Some (13 # 1, 100 # 1) |} ];
     cons_gdf := None;
     rng := fun _ => 0%nat |}.

(** A district whose geometries fail: the second competitor and the one
    office have a centroid that cannot be read. *)
Definition broken_geo : GeoData :=
  {| supply_gdf := Some [ {| sr_name := Some "Bean";
                             sr_centroid := Some (13 # 1, 100 # 1) |};
                          {| sr_name := Some "Leaf"; sr_centroid := None |} ];
     demand_gdf := Some [ {| dr_cells := ["nan"; "office"]; dr_centroid := None |} ];
     cons_gdf := Some 0%nat;
     rng := fun _ => 0%nat |}.

(** The cache holding one result, written at time 0. *)
Definition one_entry_cache
    : gmap string (CacheManager.cache_file ParamValue AnalysisResult) :=
  CacheManager.set json_dumps sha256_hexdigest value_ltb 0 ∅ cafe_result
    params_radius_first.

(** A log of two analyses, logged one microsecond apart. *)
Definition logged_at (now : Z) : HistoryManager.HistoryEntry :=
  {| HistoryManager.he_timestamp := now;
     HistoryManager.he_location :=
       {| HistoryManager.loc_lat := 13 # 1; HistoryManager.loc_lon := 100 # 1 |};
     HistoryManager.he_business_type := "Cafe";
     HistoryManager.he_radius := 1000;
     HistoryManager.he_result := summary cafe_result |}.
Definition two_entries : HistoryManager.history_file :=
  HistoryManager.Saved [logged_at 1; logged_at 2].

End Scenario.

(* ================================================================== *)
(** * Properties *)

(** ** The analysis: counts, score, verdict and growth *)

Section AnalyzeFacts.
Context {F : PyFloat}.
Import Main Spec.

Lemma breakdown_incr_total group b :
  breakdown_total (breakdown_incr group b) = S (breakdown_total b).
Proof. destruct group; unfold breakdown_total; simpl; lia. Qed.

Lemma classify_row_total cells b :
  breakdown_total (classify_row cells b) = S (breakdown_total b).
Proof.
  unfold classify_row. destruct (assign_group cells); apply breakdown_incr_total.
Qed.

Lemma classify_rows_total (rows : list DemandRow) b :
  breakdown_total (fold_left (fun b row => classify_row (dr_cells row) b) rows b)
  = (breakdown_total b + length rows)%nat.
Proof.
  revert b. induction rows as [|row rows IH]; intros b; simpl.
  - lia.
  - rewrite IH, classify_row_total. lia.
Qed.

Lemma length_delete_lt {A} (l : list A) i :
  (i < length l)%nat -> length (delete i l) = pred (length l).
Proof.
  revert i. induction l as [|x l IH]; intros [|i] Hi; simpl in *; try lia.
  rewrite IH by lia. lia.
Qed.

Lemma sample_length {A} rng n (rows : list A) :
  length (sample rng n rows) = Nat.min n (length rows).
Proof.
  revert rows. induction n as [|n IH]; intros rows; [reflexivity|].
  destruct rows as [|r rows]; [reflexivity|].
  cbn [sample length]. rewrite IH.
  rewrite length_delete_lt by (apply Nat.mod_upper_bound; simpl; lia).
  simpl. lia.
Qed.

Lemma sample_subseteq {A} rng n (rows : list A) r :
  r ∈ sample rng n rows -> r ∈ rows.
Proof.
  revert rows. induction n as [|n IH]; intros rows Hr; [by apply elem_of_nil in Hr|].
  destruct rows as [|r0 rows]; [by apply elem_of_nil in Hr|].
  cbn [sample] in Hr. apply elem_of_cons in Hr as [->|Hr].
  - apply list_elem_of_In, nth_In, Nat.mod_upper_bound. simpl. lia.
  - apply IH in Hr. revert Hr. apply sublist_subseteq, sublist_delete.
Qed.

Lemma fetch_demand_counts rng gdf :
  let raw := match gdf with Some rows => length rows | None => 0%nat end in
  breakdown_total (snd (fetch_demand rng gdf)) = raw /\
  (length (fst (fetch_demand rng gdf)) <= Nat.min raw 1000)%nat.
Proof.
  destruct gdf as [[|row rows]|]; cbn zeta; try (split; [reflexivity|simpl; lia]).
  unfold fetch_demand. cbn [fst snd]. split.
  - rewrite classify_rows_total. reflexivity.
  - destruct (mapM dr_centroid _) as [centroids|] eqn:Hread; [|simpl; lia].
    rewrite length_map. apply length_mapM in Hread. rewrite <- Hread.
    destruct (Nat.ltb_spec 1000 (length (row :: rows))).
    + rewrite sample_length. lia.
    + lia.
Qed.

(** When every centroid can be read, the points are those of the rows,
    sampled down to 1000. *)
Lemma fetch_demand_readable rng rows :
  Forall (fun row => is_Some (dr_centroid row)) rows ->
  length (fst (fetch_demand rng (Some rows))) = Nat.min (length rows) 1000.
Proof.
  intros Hread. destruct rows as [|row rows]; [reflexivity|].
  unfold fetch_demand. cbn [fst].
  set (shown := if (1000 <? length (row :: rows))%nat then _ else _).
  assert (Hshown : Forall (fun row => is_Some (dr_centroid row)) shown
                   /\ length shown = Nat.min (length (row :: rows)) 1000).
  { subst shown. destruct (Nat.ltb_spec 1000 (length (row :: rows))).
    - split; [|rewrite sample_length; lia].
      apply Forall_forall. intros r Hr. rewrite Forall_forall in Hread.
      apply Hread. revert Hr. apply sample_subseteq.
    - split; [exact Hread|lia]. }
  destruct Hshown as [Hall Hlen].
  destruct (mapM dr_centroid shown) as [centroids|] eqn:Hm.
  - rewrite length_map. apply length_mapM in Hm. lia.
  - exfalso. apply mapM_None in Hm. apply Exists_exists in Hm as (r & Hr & Hnone).
    rewrite Forall_forall in Hall. apply Hall in Hr as [? Hsome]. congruence.
Qed.

Lemma calculate_score_eq num_supply num_demand :
  calculate_score num_supply num_demand =
  Ok (spec_score num_supply num_demand,
      spec_verdict num_supply num_demand,
      color_of (spec_verdict num_supply num_demand)).
Proof.
  unfold calculate_score, spec_verdict, spec_score, Py.truediv.
  assert (Hdiv : (if (0 <? num_supply)%nat then num_supply else 1%nat)
                 = Nat.max num_supply 1).
  { destruct (Nat.ltb_spec 0 num_supply); lia. }
  rewrite Hdiv.
  destruct (Z.eqb_spec (Z.of_nat (Nat.max num_supply 1)) 0) as [Hz|_]; [lia|].
  cbn [mbind result_bind].
  destruct (Nat.eqb_spec num_supply 0) as [Hs|Hs];
    destruct (Nat.ltb_spec 0 num_demand) as [Hd|Hd]; cbn [andb].
  - rewrite bool_decide_eq_true_2 by (split; assumption). reflexivity.
  - rewrite bool_decide_eq_false_2 by lia.
    repeat match goal with |- context [if ?b then _ else _] => destruct b end;
      reflexivity.
  - rewrite bool_decide_eq_false_2 by lia.
    repeat match goal with |- context [if ?b then _ else _] => destruct b end;
      reflexivity.
  - rewrite bool_decide_eq_false_2 by lia.
    repeat match goal with |- context [if ?b then _ else _] => destruct b end;
      reflexivity.
Qed.

(** The result of sections A to D, field by field. *)
Lemma analyze_compute_eq geo :
  let supply := fetch_supply (supply_gdf geo) in
  let demand := fetch_demand (rng geo) (demand_gdf geo) in
  let growth := future_growth (cons_gdf geo) in
  let num_demand := length (fst demand) in
  analyze_compute geo =
  Ok {| score := spec_score (snd supply) num_demand;
        verdict := spec_verdict (snd supply) num_demand;
        verdict_color := color_of (spec_verdict (snd supply) num_demand);
        supply_count := snd supply;
        demand_count := num_demand;
        demand_breakdown := snd demand;
        growth_status := fst growth;
        construction_count := snd growth;
        supply_points := fst supply;
        demand_points := fst demand |}.
Proof.
  cbn zeta. unfold analyze_compute.
  destruct (fetch_supply (supply_gdf geo)) as [supply_points num_supply].
  destruct (fetch_demand (rng geo) (demand_gdf geo)) as [demand_points bd].
  destruct (future_growth (cons_gdf geo)) as [status cons_count].
  rewrite calculate_score_eq. reflexivity.
Qed.

(** C10: the [demand_count] of a computed result is the length of its
    [demand_points] list, hence at most 1000: the count is taken after the
    rows were sampled down for display. *)
Theorem demand_count_is_points_length (geo : GeoData) :
  exists r, analyze_compute geo = Ok r /\
    demand_count r = length (demand_points r) /\
    (demand_count r <= 1000)%nat.
Proof.
  eexists. split; [apply analyze_compute_eq|]. cbn.
  split; [reflexivity|].
  destruct (fetch_demand_counts (rng geo) (demand_gdf geo)) as [_ Hlen].
  lia.
Qed.

(** C5: the score is [round(demand_count / max(supply_count, 1), 2)], the
    verdict follows the precedence order uncontested, high potential (score
    above 5), balanced (score above 2), saturated, and the color is the one
    fixed for the verdict. *)
Theorem score_and_verdict (geo : GeoData) :
  exists r, analyze_compute geo = Ok r /\
    score r = spec_score (supply_count r) (demand_count r) /\
    verdict r = spec_verdict (supply_count r) (demand_count r) /\
    verdict_color r = color_of (verdict r).
Proof.
  eexists. split; [apply analyze_compute_eq|]. cbn. auto.
Qed.

Lemma future_growth_count gdf : snd (future_growth gdf) = default 0%nat gdf.
Proof.
  destruct gdf as [n|]; [|reflexivity]. simpl.
  destruct (5 <? n)%nat; [reflexivity|]. destruct (2 <? n)%nat; reflexivity.
Qed.

Lemma future_growth_status gdf :
  fst (future_growth gdf) = spec_growth (default 0%nat gdf).
Proof.
  unfold spec_growth. destruct gdf as [n|]; [|reflexivity]. simpl.
  destruct (Nat.ltb_spec 5 n).
  - rewrite bool_decide_eq_true_2 by assumption. reflexivity.
  - rewrite bool_decide_eq_false_2 by lia.
    destruct (Nat.ltb_spec 2 n).
    + rewrite bool_decide_eq_true_2 by lia. reflexivity.
    + rewrite bool_decide_eq_false_2 by lia. reflexivity.
Qed.

Lemma spec_growth_cases n :
  (spec_growth n = Booming <-> (5 < n)%nat) /\
  (spec_growth n = Growing <-> (2 < n <= 5)%nat) /\
  (spec_growth n = Stable <-> (n <= 2)%nat).
Proof.
  unfold spec_growth. repeat case_bool_decide; intuition (try discriminate; try lia).
Qed.

(** C6: the growth status is booming exactly above 5 construction sites,
    growing exactly from 3 to 5, stable otherwise; a failed construction
    fetch counts 0 sites and so reads stable. *)
Theorem growth_status_thresholds (geo : GeoData) :
  exists r, analyze_compute geo = Ok r /\
    construction_count r = default 0%nat (cons_gdf geo) /\
    growth_status r = spec_growth (construction_count r) /\
    (growth_status r = Booming <-> (5 < construction_count r)%nat) /\
    (growth_status r = Growing <-> (2 < construction_count r <= 5)%nat) /\
    (growth_status r = Stable <-> (construction_count r <= 2)%nat).
Proof.
  eexists. split; [apply analyze_compute_eq|]. cbn.
  rewrite future_growth_count, future_growth_status.
  split; [reflexivity|]. split; [reflexivity|]. apply spec_growth_cases.
Qed.

End AnalyzeFacts.

(** C1 fails on the code: on empty stores, a request whose demand fetch
    delivers 1001 office rows is answered with a breakdown that sums to 1001
    and a [demand_count] of 1000.  The loop counts every row; the count is
    the length of the list sampled down for display. *)
Lemma breakdown_exceeds_demand_count :
  match Main.analyze_market Scenario.json_dumps Scenario.sha256_hexdigest
          Scenario.value_ltb Scenario.ttl Scenario.noon Scenario.bangkok_cafe
          Scenario.crowded_geo Scenario.empty_stores with
  | Ok (r, _) =>
      Main.breakdown_total (Main.demand_breakdown r) = 1001%nat /\
      Main.demand_count r = 1000%nat /\
      Main.breakdown_total (Main.demand_breakdown r) <> Main.demand_count r
  | Raise _ => False
  end.
Proof. vm_compute. repeat split; discriminate. Qed.

(** The counts written before an exception stay: with one office whose
    centroid cannot be read, the breakdown counts it while the point list
    is empty; with a competitor whose centroid cannot be read after one
    that could, one supply point is listed and [supply_count] is 0. *)
Example counts_after_a_failed_read :
  match Main.analyze_market Scenario.json_dumps Scenario.sha256_hexdigest
          Scenario.value_ltb Scenario.ttl Scenario.noon Scenario.bangkok_cafe
          Scenario.broken_geo Scenario.empty_stores with
  | Ok (r, _) =>
      Main.breakdown_total (Main.demand_breakdown r) = 1%nat /\
      Main.demand_count r = 0%nat /\ Main.demand_points r = [] /\
      length (Main.supply_points r) = 1%nat /\ Main.supply_count r = 0%nat /\
      Main.verdict r = Saturated
  | Raise _ => False
  end.
Proof. vm_compute. repeat split. Qed.

(** ** The cache *)

Section SortedFacts.
Context {A : Type}.
Implicit Types (ltb : A -> A -> bool) (l : list A).

Lemma insert_stable_perm ltb x l : Py.insert_stable ltb x l ≡ₚ x :: l.
Proof.
  induction l as [|y l IH]; simpl; [reflexivity|].
  destruct (ltb y x); [|reflexivity].
  rewrite IH. apply perm_swap.
Qed.

Lemma sorted_perm ltb l : Py.sorted ltb l ≡ₚ l.
Proof.
  induction l as [|x l IH]; simpl; [reflexivity|].
  rewrite insert_stable_perm. by rewrite IH.
Qed.

(** Two comparisons that agree against [x] on the items of [l] insert [x]
    at the same place. *)
Lemma insert_stable_agree ltb1 ltb2 x l :
  (forall y, y ∈ l -> ltb1 y x = ltb2 y x) ->
  Py.insert_stable ltb1 x l = Py.insert_stable ltb2 x l.
Proof.
  induction l as [|y l IH]; intros Hagree; simpl; [reflexivity|].
  rewrite (Hagree y) by left.
  rewrite IH by (intros z Hz; apply Hagree; by right). reflexivity.
Qed.

Lemma insert_stable_sorted ltb x l :
  (forall a b c, ltb a b = false -> ltb b c = false -> ltb a c = false) ->
  (forall a b, ltb a b = true -> ltb b a = false) ->
  StronglySorted (fun a b => ltb b a = false) l ->
  StronglySorted (fun a b => ltb b a = false) (Py.insert_stable ltb x l).
Proof.
  intros Htrans Hasym. induction 1 as [|y l Hl IH Hy]; simpl.
  - repeat constructor.
  - destruct (ltb y x) eqn:Hyx.
    + constructor; [exact IH|].
      rewrite insert_stable_perm. constructor; [by apply Hasym|exact Hy].
    + constructor; [by constructor|].
      constructor; [exact Hyx|].
      eapply Forall_impl; [exact Hy|]. intros z Hz. cbn beta in *.
      by apply (Htrans z y x).
Qed.

Lemma sorted_sorted ltb l :
  (forall a b c, ltb a b = false -> ltb b c = false -> ltb a c = false) ->
  (forall a b, ltb a b = true -> ltb b a = false) ->
  StronglySorted (fun a b => ltb b a = false) (Py.sorted ltb l).
Proof.
  intros Htrans Hasym. induction l as [|x l IH]; simpl; [constructor|].
  by apply insert_stable_sorted.
Qed.

(** Stability: the items of a class that [ltb] does not separate keep
    their order. *)
Lemma insert_stable_filter ltb (P : A -> bool) x l :
  (forall a b, P a -> P b -> ltb a b = false) ->
  filter P (Py.insert_stable ltb x l) = filter P (x :: l).
Proof.
  intros Hclass. induction l as [|y l IH]; simpl; [reflexivity|].
  destruct (ltb y x) eqn:Hyx; [|reflexivity].
  rewrite (filter_cons P y), IH, !filter_cons.
  destruct (decide (P y)) as [Hy|_]; [|reflexivity].
  destruct (decide (P x)) as [Hx|_]; [|reflexivity].
  rewrite (Hclass y x Hy Hx) in Hyx. discriminate.
Qed.

Lemma sorted_filter ltb (P : A -> bool) l :
  (forall a b, P a -> P b -> ltb a b = false) ->
  filter P (Py.sorted ltb l) = filter P l.
Proof.
  intros Hclass. induction l as [|x l IH]; simpl; [reflexivity|].
  rewrite insert_stable_filter by assumption.
  by rewrite !filter_cons, IH.
Qed.

Lemma StronglySorted_reverse (R : relation A) l :
  StronglySorted R l -> StronglySorted (flip R) (reverse l).
Proof.
  induction 1 as [|x l Hl IH Hx]; [constructor|].
  rewrite reverse_cons. apply StronglySorted_app. split; [|split].
  - intros x1 x2 H1 H2. apply list_elem_of_singleton in H2 as ->.
    rewrite elem_of_reverse in H1. unfold flip.
    eapply Forall_forall in Hx; [exact Hx|exact H1].
  - exact IH.
  - repeat constructor.
Qed.

Lemma sorted_reverse_perm ltb l : Py.sorted_reverse ltb l ≡ₚ l.
Proof.
  unfold Py.sorted_reverse.
  by rewrite reverse_Permutation, sorted_perm, reverse_Permutation.
Qed.

(** Descending: no item is less than a later one. *)
Lemma sorted_reverse_sorted ltb l :
  (forall a b c, ltb a b = false -> ltb b c = false -> ltb a c = false) ->
  (forall a b, ltb a b = true -> ltb b a = false) ->
  StronglySorted (fun a b => ltb a b = false) (Py.sorted_reverse ltb l).
Proof.
  intros Htrans Hasym. unfold Py.sorted_reverse.
  apply (StronglySorted_reverse (fun a b => ltb b a = false)).
  by apply sorted_sorted.
Qed.

Lemma sorted_reverse_filter ltb (P : A -> bool) l :
  (forall a b, P a -> P b -> ltb a b = false) ->
  filter P (Py.sorted_reverse ltb l) = filter P l.
Proof.
  intros Hclass. unfold Py.sorted_reverse.
  rewrite filter_reverse, sorted_filter by assumption.
  by rewrite filter_reverse, reverse_involutive.
Qed.

End SortedFacts.

Lemma string_ltb_false_leb (s1 s2 : string) :
  String.ltb s1 s2 = false <-> String.leb s2 s1 = true.
Proof.
  unfold String.ltb, String.leb. rewrite (String.compare_antisym s1 s2).
  destruct (String.compare s2 s1); simpl; intuition congruence.
Qed.

Lemma string_ltb_negtrans (s1 s2 s3 : string) :
  String.ltb s1 s2 = false -> String.ltb s2 s3 = false -> String.ltb s1 s3 = false.
Proof.
  rewrite !string_ltb_false_leb. intros H12 H23.
  apply Is_true_true. apply Is_true_true in H12, H23.
  exact (transitivity (R:=String.le) H23 H12).
Qed.

Lemma string_ltb_asym (s1 s2 : string) :
  String.ltb s1 s2 = true -> String.ltb s2 s1 = false.
Proof.
  unfold String.ltb. rewrite (String.compare_antisym s1 s2).
  destruct (String.compare s2 s1); simpl; intuition congruence.
Qed.

Lemma string_ltb_false_antisym (s1 s2 : string) :
  String.ltb s1 s2 = false -> String.ltb s2 s1 = false -> s1 = s2.
Proof.
  rewrite !string_ltb_false_leb. intros H21 H12. by apply String.leb_antisym.
Qed.

Section CacheFacts.
Context {V D : Type}.
Variable json_dumps : list (string * V) -> string.
Variable sha256_hexdigest : string -> string.
Variable value_ltb : V -> V -> bool.
Variable ttl : Z.

Local Abbreviation item_ltb := (CacheManager.item_ltb value_ltb).
Local Abbreviation _generate_key := (CacheManager._generate_key json_dumps sha256_hexdigest value_ltb).
Local Abbreviation get := (CacheManager.get (D:=D) json_dumps sha256_hexdigest value_ltb ttl).
Local Abbreviation set := (CacheManager.set (D:=D) json_dumps sha256_hexdigest value_ltb).
Local Abbreviation path kw := (CacheManager.cache_path (_generate_key kw)).
Local Abbreviation key_ltb := (CacheManager.key_ltb (V:=V)).

(** In a dict the keys are pairwise distinct, so sorting its items never
    compares two values. *)
Lemma sorted_items_by_key (kw : list (string * V)) :
  NoDup (kw.*1) -> Py.sorted item_ltb kw = Py.sorted key_ltb kw.
Proof.
  induction kw as [|x kw IH]; intros Hnd; [reflexivity|].
  apply NoDup_cons in Hnd as [Hx Hnd]. simpl. rewrite IH by assumption.
  apply insert_stable_agree. intros y Hy.
  rewrite sorted_perm in Hy.
  unfold CacheManager.item_ltb, CacheManager.key_ltb.
  destruct (String.eqb_spec (fst y) (fst x)) as [Heq|]; [|reflexivity].
  exfalso. apply Hx. rewrite <- Heq. apply list_elem_of_fmap. by exists y.
Qed.

Lemma sorted_by_key_unique (kw1 kw2 : list (string * V)) :
  NoDup (kw1.*1) -> kw1 ≡ₚ kw2 ->
  Py.sorted key_ltb kw1 = Py.sorted key_ltb kw2.
Proof.
  intros Hnd Hperm.
  assert (Hs : forall kw, StronglySorted (fun a b => key_ltb b a = false)
                            (Py.sorted key_ltb kw)).
  { intros kw. apply sorted_sorted; unfold CacheManager.key_ltb.
    - intros a b c. apply string_ltb_negtrans.
    - intros a b. apply string_ltb_asym. }
  eapply StronglySorted_unique_strong; [|apply Hs|apply Hs|].
  - intros x1 x2 H1 H2 H12 H21. rewrite sorted_perm in H1, H2.
    rewrite <- Hperm in H2.
    assert (Hk : fst x1 = fst x2) by (by apply string_ltb_false_antisym).
    destruct x1 as [k1 v1], x2 as [k2 v2]. simpl in Hk. subst k2.
    f_equal. apply list_elem_of_lookup in H1 as [i Hi], H2 as [j Hj].
    assert (i = j).
    { apply (NoDup_lookup (kw1.*1) i j k1); [exact Hnd| |];
        rewrite list_lookup_fmap.
      - by rewrite Hi.
      - by rewrite Hj. }
    subst j. congruence.
  - by rewrite !sorted_perm.
Qed.

(** C2: two parameter mappings holding the same key-value pairs, inserted
    in different orders, derive the same cache key; the key depends on
    nothing but the mapping. *)
Theorem generate_key_order_independent (kw1 kw2 : list (string * V)) :
  NoDup (kw1.*1) -> kw1 ≡ₚ kw2 -> _generate_key kw1 = _generate_key kw2.
Proof.
  intros Hnd Hperm. unfold CacheManager._generate_key.
  assert (Hnd2 : NoDup (kw2.*1)) by (by rewrite <- Hperm).
  rewrite !sorted_items_by_key by assumption.
  by rewrite (sorted_by_key_unique kw1 kw2).
Qed.

Lemma get_unfold now (dir : gmap string (CacheManager.cache_file V D)) kw :
  get now dir kw =
  match dir !! path kw with
  | None => (None, dir)
  | Some CacheManager.Corrupt => (None, dir)
  | Some (CacheManager.Entry cached_time _ data) =>
      if ttl <? now - cached_time then (None, delete (path kw) dir)
      else (Some data, dir)
  end.
Proof. reflexivity. Qed.

Lemma lookup_set now (dir : gmap string (CacheManager.cache_file V D)) data kw :
  set now dir data kw !! path kw = Some (CacheManager.Entry now kw data).
Proof. unfold CacheManager.set. cbv zeta. apply (lookup_insert_eq (M:=gmap string)). Qed.

(** What [get] returns was stored under the key and has not expired. *)
Lemma get_found now (dir dir' : gmap string (CacheManager.cache_file V D)) kw data :
  get now dir kw = (Some data, dir') ->
  exists cached_time params,
    dir !! path kw = Some (CacheManager.Entry cached_time params data) /\
    now - cached_time <= ttl /\ dir' = dir.
Proof.
  rewrite get_unfold.
  destruct (dir !! path kw) as [[|cached_time params data']|] eqn:Hfile;
    try discriminate.
  destruct (Z.ltb_spec ttl (now - cached_time)); [discriminate|].
  intros [= -> <-]. by exists cached_time, params.
Qed.

(** C3: [get] after [set] with the same parameters returns the stored
    data while the entry's age is within the TTL; an entry older than the
    TTL is deleted and [get] returns nothing, so no expired entry is ever
    returned; without an entry for the key [get] returns nothing. *)
Theorem get_set_ttl :
  (forall now_set now dir data kw,
      now - now_set <= ttl ->
      get now (set now_set dir data kw) kw = (Some data, set now_set dir data kw)) /\
  (forall now_set now dir data kw,
      ttl < now - now_set ->
      exists dir', get now (set now_set dir data kw) kw = (None, dir') /\
                   dir' !! path kw = None) /\
  (forall now dir kw cached_time params data,
      dir !! path kw = Some (CacheManager.Entry cached_time params data) ->
      ttl < now - cached_time ->
      get now dir kw = (None, delete (path kw) dir)) /\
  (forall now dir kw,
      dir !! path kw = None -> get now dir kw = (None, dir)) /\
  (forall now dir kw data dir',
      get now dir kw = (Some data, dir') ->
      exists cached_time params,
        dir !! path kw = Some (CacheManager.Entry cached_time params data) /\
        now - cached_time <= ttl /\ dir' = dir).
Proof.
  repeat split.
  - intros now_set now dir data kw Hage.
    rewrite get_unfold, lookup_set.
    destruct (Z.ltb_spec ttl (now - now_set)); [lia|reflexivity].
  - intros now_set now dir data kw Hage.
    exists (delete (path kw) (set now_set dir data kw)).
    rewrite get_unfold, lookup_set.
    destruct (Z.ltb_spec ttl (now - now_set)); [|lia].
    split; [reflexivity|apply lookup_delete_eq].
  - intros now dir kw cached_time params data Hfile Hage.
    rewrite get_unfold, Hfile.
    destruct (Z.ltb_spec ttl (now - cached_time)); [reflexivity|lia].
  - intros now dir kw Hfile. by rewrite get_unfold, Hfile.
  - intros now dir kw data dir'. apply get_found.
Qed.

End CacheFacts.

(** C2 at two concrete insertion orders of the same two parameters. *)
Lemma generate_key_order_witness :
  CacheManager._generate_key Scenario.json_dumps Scenario.sha256_hexdigest
    Scenario.value_ltb Scenario.params_radius_first
  = CacheManager._generate_key Scenario.json_dumps Scenario.sha256_hexdigest
      Scenario.value_ltb Scenario.params_radius_last.
Proof.
  apply generate_key_order_independent.
  - apply NoDup_cons. split; [|apply NoDup_singleton].
    intros Hin. apply list_elem_of_singleton in Hin. discriminate Hin.
  - apply perm_swap.
Defined.

(** C3 at a concrete entry: read back one microsecond after it was
    written, with a TTL of 24 hours. *)
Lemma get_set_ttl_witness :
  CacheManager.get Scenario.json_dumps Scenario.sha256_hexdigest
    Scenario.value_ltb Scenario.ttl 1
    (CacheManager.set Scenario.json_dumps Scenario.sha256_hexdigest
       Scenario.value_ltb 0 ∅ Scenario.cafe_result Scenario.params_radius_first)
    Scenario.params_radius_first
  = (Some Scenario.cafe_result,
     CacheManager.set Scenario.json_dumps Scenario.sha256_hexdigest
       Scenario.value_ltb 0 ∅ Scenario.cafe_result Scenario.params_radius_first).
Proof.
  apply (proj1 (get_set_ttl Scenario.json_dumps Scenario.sha256_hexdigest
                  Scenario.value_ltb Scenario.ttl)).
  vm_compute. discriminate.
Defined.

(** ** The history log *)

Section SliceFacts.
Context {A : Type}.
Implicit Types (l : list A).

Lemma slice_last_short n l : (length l <= n)%nat -> Py.slice_last n l = l.
Proof.
  intros Hlen. unfold Py.slice_last.
  replace (length l - n)%nat with 0%nat by lia. apply drop_0.
Qed.

Lemma slice_last_length n l : length (Py.slice_last n l) = Nat.min n (length l).
Proof. unfold Py.slice_last. rewrite length_drop. lia. Qed.

(** Cutting to the last [n] before appending does not change the last [n]
    after appending. *)
Lemma slice_last_app n l l' :
  Py.slice_last n (Py.slice_last n l ++ l') = Py.slice_last n (l ++ l').
Proof.
  unfold Py.slice_last. rewrite !length_app, length_drop.
  set (k := (length l - n)%nat).
  rewrite <- (take_drop k l) at 4. rewrite <- (assoc_L (++)).
  rewrite (drop_app_ge (take k l)) by (rewrite length_take; lia).
  rewrite length_take. f_equal. lia.
Qed.

End SliceFacts.

Section HistoryFacts.
Context {F : PyFloat}.
Import HistoryManager Spec.

(** One call: the new entry goes last and the log is cut to its last 100. *)
Lemma add_call_log file c :
  _load_history (add_call file c)
  = Py.slice_last 100 (_load_history file ++ [entry_of c]).
Proof.
  unfold add_call, add_analysis, _save_history, entry_of. cbn [_load_history].
  match goal with |- context [(100 <? ?n)%nat] => destruct (Nat.ltb_spec 100 n) end.
  - reflexivity.
  - symmetry. by apply slice_last_short.
Qed.

Lemma add_calls_log file c calls :
  _load_history (add_calls file (c :: calls))
  = Py.slice_last 100 (_load_history file ++ map entry_of (c :: calls)).
Proof.
  unfold add_calls. revert file c.
  induction calls as [|c' calls IH]; intros file c.
  - apply add_call_log.
  - change (fold_left add_call (c :: c' :: calls) file)
      with (fold_left add_call (c' :: calls) (add_call file c)).
    rewrite IH, add_call_log, slice_last_app.
    by rewrite <- (assoc_L (++)).
Qed.

(** C4: after every call of a sequence of [add_analysis] calls, from any
    state of the log, the log holds at most 100 entries, and they are the
    last 100 of everything logged so far, in insertion order: the oldest
    entries are the ones evicted. *)
Theorem history_keeps_last_100 (file : history_file) (c : AddCall) (calls : list AddCall) :
  let log := _load_history (add_calls file (c :: calls)) in
  let logged := _load_history file ++ map entry_of (c :: calls) in
  (length log <= 100)%nat /\
  log = drop (length logged - 100) logged /\
  exists evicted, logged = evicted ++ log.
Proof.
  cbn zeta. rewrite add_calls_log. split; [|split].
  - rewrite slice_last_length. lia.
  - reflexivity.
  - eexists. symmetry. apply take_drop.
Qed.

(** *** Statistics *)

Local Abbreviation incr_type :=
  (fun (d : list (string * nat)) (e : HistoryEntry) => dict_incr (he_business_type e) d).

Lemma dict_get_incr k d t :
  Main.dict_get (dict_incr k d) t
  = if String.eqb k t then Some (default 0 (Main.dict_get d k) + 1)%nat
    else Main.dict_get d t.
Proof.
  induction d as [|[k' n] d IH]; simpl.
  - destruct (String.eqb k t); reflexivity.
  - destruct (String.eqb_spec k' k) as [->|Hk'k]; simpl.
    + destruct (String.eqb_spec k t) as [->|Hkt]; [reflexivity|reflexivity].
    + rewrite IH.
      destruct (String.eqb_spec k t) as [->|Hkt]; [|reflexivity].
      destruct (String.eqb_spec k' t) as [->|_]; [congruence|reflexivity].
Qed.

Lemma dict_incr_keys k d :
  (dict_incr k d).*1 = if bool_decide (k ∈ d.*1) then d.*1 else d.*1 ++ [k].
Proof.
  induction d as [|[k' n] d IH]; cbn [dict_incr].
  - rewrite bool_decide_eq_false_2 by apply not_elem_of_nil. reflexivity.
  - destruct (String.eqb_spec k' k) as [->|Hk'k]; rewrite !fmap_cons; cbn [fst].
    + rewrite bool_decide_eq_true_2 by left. reflexivity.
    + rewrite IH. case_bool_decide as Hin.
      * rewrite bool_decide_eq_true_2 by (by right). reflexivity.
      * rewrite bool_decide_eq_false_2; [reflexivity|].
        intros Hin'. apply elem_of_cons in Hin' as [->|Hin']; congruence.
Qed.

Lemma dict_incr_NoDup k d : NoDup (d.*1) -> NoDup ((dict_incr k d).*1).
Proof.
  intros Hnd. rewrite dict_incr_keys. case_bool_decide as Hin; [assumption|].
  apply NoDup_app. split; [assumption|]. split; [|apply NoDup_singleton].
  intros x Hx Hxk. apply list_elem_of_singleton in Hxk. congruence.
Qed.

Lemma dict_get_elem_of {B} (d : list (string * B)) k v :
  Main.dict_get d k = Some v -> (k, v) ∈ d.
Proof.
  induction d as [|[k' v'] d IH]; simpl; [discriminate|].
  destruct (String.eqb_spec k' k) as [->|_].
  - intros [= ->]. left.
  - intros Hget. right. by apply IH.
Qed.

Lemma elem_of_dict_get {B} (d : list (string * B)) k v :
  NoDup (d.*1) -> (k, v) ∈ d -> Main.dict_get d k = Some v.
Proof.
  induction d as [|[k' v'] d IH]; simpl; intros Hnd Hin.
  - by apply elem_of_nil in Hin.
  - apply NoDup_cons in Hnd as [Hk' Hnd].
    apply elem_of_cons in Hin as [[= <- <-]|Hin].
    + by rewrite String.eqb_refl.
    + destruct (String.eqb_spec k' k) as [->|_]; [|by apply IH].
      exfalso. apply Hk'. apply list_elem_of_fmap. by exists (k, v).
Qed.

Lemma count_type_cons t e history :
  count_type t (e :: history)
  = ((if bool_decide (he_business_type e = t) then 1 else 0) + count_type t history)%nat.
Proof.
  unfold count_type. rewrite filter_cons.
  case_decide as He.
  - rewrite bool_decide_eq_true_2 by assumption. reflexivity.
  - rewrite bool_decide_eq_false_2 by assumption. reflexivity.
Qed.

(** The histogram after the loop: what it held before plus the
    occurrences in the log. *)
Lemma histogram_counts history d t :
  default 0%nat (Main.dict_get (fold_left incr_type history d) t)
  = (default 0 (Main.dict_get d t) + count_type t history)%nat.
Proof.
  revert d. induction history as [|e history IH]; intros d; simpl.
  - unfold count_type. simpl. lia.
  - rewrite IH, dict_get_incr, count_type_cons.
    destruct (String.eqb_spec (he_business_type e) t) as [->|Hne].
    + rewrite bool_decide_eq_true_2 by reflexivity. simpl. lia.
    + rewrite bool_decide_eq_false_2 by assumption. lia.
Qed.

Lemma histogram_NoDup history d :
  NoDup (d.*1) -> NoDup ((fold_left incr_type history d).*1).
Proof.
  revert d. induction history as [|e history IH]; intros d Hnd; simpl.
  - assumption.
  - apply IH. by apply dict_incr_NoDup.
Qed.

Lemma tally_eq history :
  tally history = (fold_left incr_type history [], sum_scores history).
Proof.
  unfold tally, sum_scores.
  generalize (@nil (string * nat)) (float_of_int 0).
  induction history as [|e history IH]; intros d total; simpl; [reflexivity|].
  apply IH.
Qed.

(** [max] returns an item of the sequence that no item exceeds. *)
Lemma max_by_spec {A} (key : A -> nat) x l :
  exists m, Py.max_by key (x :: l) = Ok m /\ m ∈ x :: l /\
            forall y, y ∈ x :: l -> (key y <= key m)%nat.
Proof.
  eexists. split; [reflexivity|].
  revert x. induction l as [|z l IH]; intros x; simpl.
  - split; [left|]. intros y Hy. apply list_elem_of_singleton in Hy. by subst.
  - destruct (IH (if (key x <? key z)%nat then z else x)) as [Hin Hmax].
    split.
    + apply elem_of_cons in Hin as [Hin|Hin]; [|right; by right].
      rewrite Hin. destruct (key x <? key z)%nat; [right; left|left].
    + intros y Hy.
      assert (Hbest : (key x <= key (if (key x <? key z)%nat then z else x)
                       /\ key z <= key (if (key x <? key z)%nat then z else x))%nat).
      { destruct (Nat.ltb_spec (key x) (key z)); lia. }
      pose proof (Hmax _ ltac:(left)) as Hb.
      apply elem_of_cons in Hy as [->|Hy]; [lia|].
      apply elem_of_cons in Hy as [->|Hy]; [lia|].
      apply Hmax. by right.
Qed.

(** C9: [get_statistics] never raises.  On an empty log it returns the
    zeroed record (no date range, no most analyzed type); on any other log
    the total is the length of the log, the histogram counts every
    business type, the average is the rounded mean of the scores, the most
    analyzed type is one of maximal count, and the date range holds the
    timestamps of the first and of the last entry. *)
Theorem get_statistics_never_fails (file : history_file) :
  let history := _load_history file in
  exists stats, get_statistics file = Ok stats /\
    total_analyses stats = length history /\
    (forall t, default 0%nat (Main.dict_get (business_types stats) t)
               = count_type t history) /\
    average_score stats =
      match history with
      | [] => float_of_int 0
      | _ :: _ =>
          float_round (float_div (sum_scores history)
                         (float_of_int (Z.of_nat (length history)))) 2
      end /\
    match most_analyzed_type stats with
    | None => history = []
    | Some t => (0 < count_type t history)%nat /\
                forall t', (count_type t' history <= count_type t history)%nat
    end /\
    date_range stats =
      match history with
      | [] => None
      | e :: _ => Some (Some (he_timestamp e), he_timestamp <$> last history)
      end /\
    match history with
    | [] => stats = {| total_analyses := 0; business_types := [];
                       average_score := float_of_int 0;
                       most_analyzed_type := None; date_range := None |}
    | _ :: _ => True
    end.
Proof.
  cbn zeta. unfold get_statistics.
  destruct (_load_history file) as [|e h] eqn:Hload.
  - eexists. split; [reflexivity|]. cbn. repeat split; reflexivity.
  - rewrite tally_eq.
    assert (Hcounts : forall t,
               default 0%nat (Main.dict_get (fold_left incr_type (e :: h) []) t)
               = count_type t (e :: h))
      by (intros t; exact (histogram_counts (e :: h) [] t)).
    pose proof (histogram_NoDup (e :: h) [] (NoDup_nil_2)) as Hnd.
    destruct (fold_left incr_type (e :: h) []) as [|b bts] eqn:Hbts.
    { specialize (Hcounts (he_business_type e)).
      rewrite count_type_cons, bool_decide_eq_true_2 in Hcounts by reflexivity.
      simpl in Hcounts. lia. }
    destruct (max_by_spec snd b bts) as (m & Hm & Hin & Hmax).
    assert (Hlast : exists e', last (e :: h) = Some e').
    { destruct (last (e :: h)) eqn:Hl; [eauto|].
      apply last_None in Hl. discriminate. }
    destruct Hlast as [e' Hlast].
    unfold Py.truediv, Py.last_item, Py.first_item.
    rewrite Hlast.
    destruct (Z.eqb_spec (Z.of_nat (length (e :: h))) 0) as [Hz|_];
      [simpl in Hz; lia|].
    cbn [mbind result_bind]. rewrite Hm. cbn [mbind result_bind].
    eexists. split; [reflexivity|]. cbn [total_analyses business_types
      average_score most_analyzed_type date_range fmap option_fmap option_map].
    split; [reflexivity|]. split; [exact Hcounts|]. split; [reflexivity|].
    split; [|split; [reflexivity|exact I]].
    destruct m as [t n].
    assert (Hn : count_type t (e :: h) = n).
    { rewrite <- Hcounts. by rewrite (elem_of_dict_get _ t n Hnd Hin). }
    cbn [fst]. split.
    + rewrite Hn. destruct n as [|n]; [|lia].
      (* a key of the histogram was counted at least once *)
      exfalso. clear -Hbts Hin.
      assert (Hpos : forall history d,
                 Forall (fun kv => 0 < snd kv)%nat d ->
                 Forall (fun kv => 0 < snd kv)%nat (fold_left incr_type history d)).
      { induction history as [|e0 history IH]; intros d Hd; [exact Hd|].
        simpl. apply IH. clear IH.
        induction Hd as [|[k' n'] d Hk' Hd IHd]; simpl.
        - repeat constructor.
        - destruct (String.eqb k' (he_business_type e0)).
          + constructor; [simpl; lia|exact Hd].
          + constructor; [exact Hk'|exact IHd]. }
      specialize (Hpos (e :: h) [] (Forall_nil_2 _)).
      rewrite Hbts in Hpos. rewrite Forall_forall in Hpos.
      specialize (Hpos _ Hin). simpl in Hpos. lia.
    + intros t'. rewrite Hn, <- Hcounts.
      destruct (Main.dict_get (b :: bts) t') as [n'|] eqn:Hget; [|simpl; lia].
      apply dict_get_elem_of in Hget. apply (Hmax _ Hget).
Qed.

End HistoryFacts.

(** ** Text *)

Section TextFacts.
Import Spec.

Lemma startswith_spec s p : Py.startswith s p = true <-> is_prefix p s.
Proof.
  unfold is_prefix. revert s. induction p as [|c p IH]; intros s; simpl.
  - split; [intros _; by exists s|reflexivity].
  - destruct s as [|d s].
    + split; [discriminate|intros [rest Hrest]; discriminate].
    + rewrite andb_true_iff, IH. split.
      * intros [Hcd [rest ->]]. apply Ascii.eqb_eq in Hcd as ->. by exists rest.
      * intros [rest [= -> ->]]. split; [apply Ascii.eqb_refl|by exists rest].
Qed.

Lemma contains_spec p s : Py.contains p s = true <-> is_substring p s.
Proof.
  unfold is_substring. induction s as [|d s IH]; simpl.
  - rewrite orb_false_r, startswith_spec. split.
    + intros [rest Hrest]. by exists EmptyString, rest.
    + intros (before & after & Heq). destruct before; [|discriminate].
      by exists after.
  - rewrite orb_true_iff, startswith_spec, IH. split.
    + intros [[rest Hrest]|(before & after & ->)].
      * by exists EmptyString, rest.
      * by exists (String d before), after.
    + intros (before & after & Heq). destruct before as [|d' before].
      * left. by exists after.
      * right. injection Heq as _ ->. by exists before, after.
Qed.

Lemma has_char_nil c : ~ has_char c EmptyString.
Proof. intros (before & after & Heq). destruct before; discriminate. Qed.

Lemma has_char_cons c d s : has_char c (String d s) <-> c = d \/ has_char c s.
Proof.
  split.
  - intros (before & after & Heq). destruct before as [|d' before].
    + left. by injection Heq.
    + right. injection Heq as _ ->. by exists before, after.
  - intros [->|(before & after & ->)].
    + by exists EmptyString, s.
    + by exists (String d before), after.
Qed.

(** [split] yields a first segment, and nothing more exactly when the
    separator does not occur. *)
Lemma split_head sep s :
  exists segment segments,
    Py.split sep s = segment :: segments /\
    is_first_segment sep segment s /\
    (segments = [] <-> ~ has_char sep s).
Proof.
  unfold is_first_segment. induction s as [|c s IH]; simpl.
  - exists EmptyString, []. repeat split; auto using has_char_nil.
  - destruct IH as (segment & segments & -> & [Hfree Hshape] & Hmore).
    destruct (Ascii.eqb_spec c sep) as [->|Hne].
    + exists EmptyString, (segment :: segments).
      split; [reflexivity|]. split; [split|].
      * apply has_char_nil.
      * right. by exists s.
      * split; [discriminate|]. intros Hno. exfalso. apply Hno.
        apply has_char_cons. by left.
    + exists (String c segment), segments.
      split; [reflexivity|]. split; [split|].
      * rewrite has_char_cons. intros [->|Hin]; [by apply Hne|by apply Hfree].
      * destruct Hshape as [->|[rest ->]]; [by left|right; by exists rest].
      * rewrite Hmore, has_char_cons. split.
        -- intros Hno [->|Hin]; [by apply Hne|by apply Hno].
        -- intros Hno Hin. apply Hno. by right.
Qed.

Lemma split_single sep s :
  (length (Py.split sep s) <=? 1)%nat = true <-> ~ has_char sep s.
Proof.
  destruct (split_head sep s) as (segment & segments & -> & _ & Hmore).
  rewrite <- Hmore. rewrite Nat.leb_le. simpl.
  destruct segments; simpl; split; (lia || congruence || discriminate).
Qed.

End TextFacts.

(** ** The relevance ranker *)

Section AutocompleteFacts.
Context {F : PyFloat}.
Variable lower : string -> string.
Import Main Spec.

Lemma truthy_spec (item : SearchItem) :
  truthy (address_country item) = true <-> has_country item.
Proof.
  unfold has_country. destruct (address_country item) as [s|]; simpl; [|done].
  rewrite negb_true_iff. destruct (String.eqb_spec s ""); split; congruence.
Qed.

(** The two tests on an item whose display name can be read. *)
Lemma skipped_spec (item : SearchItem) name :
  display_name item = Some name ->
  skipped item = Ok (bool_decide (dropped item)).
Proof.
  intros Hname.
  set (b := String.eqb (place_class item) "boundary"
            && String.eqb (place_type item) "administrative"
            && (truthy (address_country item)
                && (length (Py.split "," name) <=? 1)%nat)
            || bool_decide (place_class item ∈ ["natural"; "waterway"])
               && bool_decide (place_type item ∈ ["sea"; "ocean"; "continent"])).
  assert (Hskip : skipped item = Ok b).
  { subst b. unfold skipped. rewrite Hname.
    destruct (String.eqb (place_class item) "boundary"),
             (String.eqb (place_type item) "administrative"),
             (truthy (address_country item));
      cbn [Py.read mbind result_bind andb];
      destruct
             (length (Py.split "," name) <=? 1)%nat,
             (bool_decide (place_class item ∈ ["natural"; "waterway"])),
             (bool_decide (place_type item ∈ ["sea"; "ocean"; "continent"]));
      reflexivity. }
  assert (Hb : b = true <-> dropped item).
  { subst b. unfold dropped, single_component, sea_ocean_continent. rewrite Hname.
    rewrite orb_true_iff, !andb_true_iff, !String.eqb_eq, truthy_spec, split_single.
    rewrite !bool_decide_eq_true, !elem_of_cons, !elem_of_nil. tauto. }
  rewrite Hskip. f_equal. symmetry. destruct b.
  - apply bool_decide_eq_true_2. by apply Hb.
  - apply bool_decide_eq_false_2. intros Hd. apply Hb in Hd. discriminate Hd.
Qed.

(** The loop body on an item whose reads all succeed. *)
Lemma loop_body_readable query (item : SearchItem) :
  readable item ->
  loop_body lower query item
  = Ok (if decide (dropped item) then None else Some (record_of lower query item)).
Proof.
  intros ([name Hname] & [lat Hlat] & [lon Hlon] & [imp Himp]).
  unfold loop_body. rewrite Himp. cbn [Py.read mbind result_bind].
  rewrite (skipped_spec item name Hname). cbn [mbind result_bind].
  case_bool_decide as Hd.
  - by rewrite decide_True.
  - rewrite decide_False by assumption.
    unfold record_of, score_of. rewrite Hname, Hlat, Hlon, Himp. reflexivity.
Qed.

Lemma score_results_readable query (data : list SearchItem) :
  Forall readable data ->
  score_results lower query data = Ok (record_of lower query <$> kept data).
Proof.
  unfold kept. induction 1 as [|item data Hitem _ IH]; [reflexivity|].
  cbn [score_results]. rewrite loop_body_readable, IH by assumption.
  cbn [mbind result_bind]. rewrite filter_cons.
  destruct (decide (dropped item)) as [Hd|Hd].
  - rewrite decide_False by tauto. reflexivity.
  - rewrite decide_True by assumption. reflexivity.
Qed.


Lemma Forall2_fmap_diag {A B} (P : A -> B -> Prop) (f : A -> B) (l : list A) :
  Forall (fun x => P x (f x)) l -> Forall2 P l (f <$> l).
Proof. induction 1; constructor; assumption. Qed.

Lemma kept_readable (data : list SearchItem) :
  Forall readable data -> Forall readable (kept data).
Proof.
  unfold kept. rewrite !Forall_forall. intros Hread item Hin.
  apply list_elem_of_filter in Hin as [_ Hin]. by apply Hread.
Qed.


(** The name bonus in terms of the lowered name, its first segment and
    the lowered query. *)
Lemma name_bonus_cases (name query : string) :
  exists segment,
    is_first_segment "," segment (lower name) /\
    (is_prefix (lower query) (lower name) -> name_bonus lower name query = 30) /\
    (~ is_prefix (lower query) (lower name) ->
     is_substring (lower query) (lower segment) ->
     name_bonus lower name query = 20) /\
    (~ is_prefix (lower query) (lower name) ->
     ~ is_substring (lower query) (lower segment) ->
     is_substring (lower query) (lower name) ->
     name_bonus lower name query = 10) /\
    (~ is_prefix (lower query) (lower name) ->
     ~ is_substring (lower query) (lower segment) ->
     ~ is_substring (lower query) (lower name) ->
     name_bonus lower name query = 0).
Proof.
  destruct (split_head "," (lower name)) as (segment & segments & Hsplit & Hfirst & _).
  exists segment. split; [exact Hfirst|].
  unfold name_bonus. rewrite Hsplit. cbn [head default from_option id].
  rewrite <- !startswith_spec, <- !contains_spec.
  destruct (Py.startswith (lower name) (lower query));
    destruct (Py.contains (lower query) (lower segment));
    destruct (Py.contains (lower query) (lower name));
    intuition congruence.
Qed.

Lemma class_score_cases :
  (forall c t points, dict_get priority_map c = Some (Flat points) ->
                      class_score c t = points) /\
  (forall c table t points,
      dict_get priority_map c = Some (ByType table) ->
      dict_get table t = Some points -> class_score c t = points) /\
  (forall c table t,
      dict_get priority_map c = Some (ByType table) ->
      dict_get table t = None -> class_score c t = 30) /\
  (forall c t, dict_get priority_map c = None -> class_score c t = 40).
Proof.
  unfold class_score. repeat split.
  - intros c t points Hc. by rewrite Hc.
  - intros c table t points Hc Ht. by rewrite Hc, Ht.
  - intros c table t Hc Ht. by rewrite Hc, Ht.
  - intros c t Hc. by rewrite Hc.
Qed.

(** The table itself: the flat classes, and [place] as the one class
    with a nested table. *)
Lemma class_score_table :
  class_score "amenity" "cafe" = 100 /\ class_score "shop" "bakery" = 95 /\
  class_score "tourism" "hotel" = 90 /\ class_score "leisure" "park" = 85 /\
  class_score "building" "yes" = 80 /\ class_score "highway" "primary" = 70 /\
  class_score "boundary" "administrative" = 20 /\
  class_score "place" "city_block" = 62 /\ class_score "place" "suburb" = 55 /\
  class_score "place" "country" = 5 /\ class_score "place" "island" = 30 /\
  class_score "railway" "station" = 40.
Proof. repeat split. Qed.

(** Sorting the images under [f] is sorting by the order read through
    [f]. *)
Lemma insert_stable_fmap {A B} (f : A -> B) (ltb : B -> B -> bool) x (l : list A) :
  Py.insert_stable ltb (f x) (f <$> l)
  = f <$> Py.insert_stable (fun a b => ltb (f a) (f b)) x l.
Proof.
  induction l as [|y l IH]; [reflexivity|].
  rewrite fmap_cons. cbn [Py.insert_stable].
  destruct (ltb (f y) (f x)); [|reflexivity].
  by rewrite fmap_cons, IH.
Qed.

Lemma sorted_fmap {A B} (f : A -> B) (ltb : B -> B -> bool) (l : list A) :
  Py.sorted ltb (f <$> l) = f <$> Py.sorted (fun a b => ltb (f a) (f b)) l.
Proof.
  unfold Py.sorted. induction l as [|x l IH]; [reflexivity|].
  rewrite fmap_cons. cbn [foldr]. rewrite IH. apply insert_stable_fmap.
Qed.

Lemma sorted_reverse_fmap {A B} (f : A -> B) (ltb : B -> B -> bool) (l : list A) :
  Py.sorted_reverse ltb (f <$> l)
  = f <$> Py.sorted_reverse (fun a b => ltb (f a) (f b)) l.
Proof.
  unfold Py.sorted_reverse. by rewrite <- fmap_reverse, sorted_fmap, fmap_reverse.
Qed.

(** The comparison of two candidates by their scores. *)
Local Abbreviation by_score query :=
  (fun a b : SearchItem =>
     float_ltb (score_of lower query a) (score_of lower query b)).

Lemma by_score_negtrans `{!PyFloatOrder F} query (a b c : SearchItem) :
  by_score query a b = false -> by_score query b c = false ->
  by_score query a c = false.
Proof. apply float_ltb_negtrans. Qed.

Lemma by_score_asym `{!PyFloatOrder F} query (a b : SearchItem) :
  by_score query a b = true -> by_score query b a = false.
Proof.
  intros Hab.
  destruct (float_ltb (score_of lower query b) (score_of lower query a)) eqn:Hba;
    [|reflexivity].
  rewrite <- (float_ltb_irrefl (score_of lower query a)). symmetry.
  by apply (float_ltb_trans _ (score_of lower query b)).
Qed.

Lemma tied_not_less `{!PyFloatOrder F} s (x y : float) :
  tied s x -> tied s y -> float_ltb x y = false.
Proof.
  unfold tied. intros Hx Hy.
  apply andb_prop_elim in Hx as [Hx _], Hy as [_ Hy].
  apply negb_prop_elim, Is_true_false_1 in Hx, Hy.
  by apply (float_ltb_negtrans _ s).
Qed.

(** The score of a candidate whose importance and name can be read. *)
Lemma score_of_has_score query (item : SearchItem) :
  readable item -> has_score lower query item (score_of lower query item).
Proof.
  intros ([name Hname] & _ & _ & [imp Himp]).
  destruct (name_bonus_cases name query) as (segment & Hfirst & H30 & H20 & H10 & H0).
  exists imp, name, segment.
  split; [exact Himp|]. split; [exact Hname|]. split; [exact Hfirst|].
  unfold score_of, relevance. rewrite Himp, Hname. cbn [from_option id].
  cbn zeta. repeat split; intros.
  - by rewrite H30.
  - by rewrite H20.
  - by rewrite H10.
  - by rewrite H0.
Qed.

Lemma strip_record_suggests query (item : SearchItem) :
  readable item -> suggests item (strip (record_of lower query item)).
Proof.
  intros ([name Hname] & [lat Hlat] & [lon Hlon] & _).
  unfold suggests, strip, record_of. cbn. rewrite Hname, Hlat, Hlon. done.
Qed.

(** The answer to a list of readable candidates: the survivors, ranked,
    cut to 8 and stripped. *)
Lemma autocomplete_readable query (data : list SearchItem) :
  Forall readable data ->
  autocomplete lower query 200 data
  = (fun item => strip (record_of lower query item))
      <$> take 8 (Py.sorted_reverse (by_score query) (kept data)).
Proof.
  intros Hread. unfold autocomplete, Py.slice_first. cbn [Z.eqb Pos.eqb negb].
  rewrite score_results_readable by assumption.
  rewrite (sorted_reverse_fmap (record_of lower query) score_ltb).
  rewrite <- fmap_take, <- list_fmap_compose. reflexivity.
Qed.

(** C8, as amended: among candidates that can all be read, each has as
    its score the score of its class and type (40 for a class outside the
    table, 30 for a type outside the nested table of its class) plus
    [importance * 20] plus one name bonus, 30, 20, 10 or none, taken in
    that priority; the survivors are ranked by descending score, ties in
    input order, and the answer is made of the first 8 of them, each
    reduced to its display name and coordinates. *)
Theorem relevance_ranking `{!PyFloatOrder F} (query : string) (data : list SearchItem) :
  Forall readable data ->
  exists (score : SearchItem -> float) (ranked : list SearchItem),
    (forall item, item ∈ data -> has_score lower query item (score item)) /\
    ((forall c t points, dict_get priority_map c = Some (Flat points) ->
                         class_score c t = points) /\
     (forall c table t points,
         dict_get priority_map c = Some (ByType table) ->
         dict_get table t = Some points -> class_score c t = points) /\
     (forall c table t,
         dict_get priority_map c = Some (ByType table) ->
         dict_get table t = None -> class_score c t = 30) /\
     (forall c t, dict_get priority_map c = None -> class_score c t = 40)) /\
    ranked ≡ₚ kept data /\
    StronglySorted (fun a b => float_ltb (score a) (score b) = false) ranked /\
    (forall s, filter (fun item => tied s (score item)) ranked
               = filter (fun item => tied s (score item)) (kept data)) /\
    Forall2 suggests (take 8 ranked) (autocomplete lower query 200 data).
Proof.
  intros Hread.
  exists (score_of lower query), (Py.sorted_reverse (by_score query) (kept data)).
  split; [|split; [|split; [|split; [|split]]]].
  - intros item Hin. apply score_of_has_score.
    rewrite Forall_forall in Hread. by apply Hread.
  - exact class_score_cases.
  - apply sorted_reverse_perm.
  - apply (sorted_reverse_sorted (by_score query)).
    + apply by_score_negtrans.
    + apply by_score_asym.
  - intros s.
    apply (sorted_reverse_filter (by_score query)
             (fun item => tied s (score_of lower query item))).
    intros a b. apply tied_not_less.
  - rewrite autocomplete_readable by assumption.
    apply Forall2_fmap_diag, Forall_take.
    eapply Forall_impl with (P := readable); [|apply strip_record_suggests].
    rewrite sorted_reverse_perm. by apply kept_readable.
Qed.

(** An item the loop appends a record for. *)
Lemma loop_body_Some query (item : SearchItem) r :
  loop_body lower query item = Ok (Some r) ->
  skipped item = Ok false /\
  display_name item = Some (sr_display_name r) /\
  item_lat item = Some (sr_lat r) /\ item_lon item = Some (sr_lon r).
Proof.
  unfold loop_body.
  destruct (importance item) as [imp|]; [|discriminate].
  destruct (skipped item) as [[|]|e]; try discriminate.
  destruct (display_name item) as [name|]; [|discriminate].
  destruct (item_lat item) as [lat|]; [|discriminate].
  destruct (item_lon item) as [lon|]; [|discriminate].
  cbn. intros [= <-]. done.
Qed.

Lemma score_results_elem query (data : list SearchItem) results r :
  score_results lower query data = Ok results -> r ∈ results ->
  exists item, item ∈ data /\ loop_body lower query item = Ok (Some r).
Proof.
  revert results. induction data as [|item data IH]; intros results.
  - intros [= <-] Hr. by apply elem_of_nil in Hr.
  - cbn [score_results].
    destruct (loop_body lower query item) as [appended|e] eqn:Hbody; [|discriminate].
    destruct (score_results lower query data) as [rest|e]; [|discriminate].
    cbn [mbind result_bind]. intros [= <-] Hr.
    assert (Hrest : r ∈ rest -> exists item0, item0 ∈ item :: data
                      /\ loop_body lower query item0 = Ok (Some r)).
    { intros Hin. destruct (IH rest eq_refl Hin) as (item0 & Hin0 & Hbody0).
      exists item0. split; [by apply elem_of_cons; right|exact Hbody0]. }
    destruct appended as [r0|]; [|by apply Hrest].
    apply elem_of_cons in Hr as [->|Hr]; [|by apply Hrest].
    exists item. split; [by apply elem_of_cons; left|exact Hbody].
Qed.

(** The items the loop passes over leave no trace. *)
Lemma score_results_passed_over query (data : list SearchItem) :
  score_results lower query
    (filter (fun item => passed_over lower query item = false) data)
  = score_results lower query data.
Proof.
  induction data as [|item data IH]; [reflexivity|].
  rewrite filter_cons.
  destruct (loop_body lower query item) as [[r|]|e] eqn:Hbody.
  - rewrite decide_True by (unfold passed_over; by rewrite Hbody).
    cbn [score_results]. by rewrite Hbody, IH.
  - rewrite decide_False by (unfold passed_over; by rewrite Hbody).
    cbn [score_results]. rewrite Hbody, IH. cbn [mbind result_bind].
    by destruct (score_results lower query data).
  - rewrite decide_True by (unfold passed_over; by rewrite Hbody).
    cbn [score_results]. by rewrite Hbody.
Qed.

End AutocompleteFacts.

(** ** The rational floats are ordered *)

Lemma qfloat_ltb_lt (x y : Q) : QFloat.ltb x y = true <-> (x < y)%Q.
Proof.
  unfold QFloat.ltb. rewrite Qlt_alt.
  destruct (x ?= y)%Q; split; congruence.
Qed.

Lemma qfloat_ltb_ge (x y : Q) : QFloat.ltb x y = false <-> (y <= x)%Q.
Proof.
  rewrite <- not_true_iff_false, qfloat_ltb_lt. split.
  - apply Qnot_lt_le.
  - intros Hle Hlt. exact (Qlt_not_le _ _ Hlt Hle).
Qed.

Lemma qfloat_order : PyFloatOrder QFloat.instance.
Proof.
  constructor; cbn [float float_ltb QFloat.instance].
  - intros x. apply qfloat_ltb_ge. apply Qle_refl.
  - intros x y z. rewrite !qfloat_ltb_lt. apply Qlt_trans.
  - intros x y z. rewrite !qfloat_ltb_ge. intros Hyx Hzy.
    exact (Qle_trans _ _ _ Hzy Hyx).
Qed.

Lemma candidates_readable : Forall Spec.readable Scenario.candidates.
Proof. repeat constructor; by eexists. Qed.



(** C8 on the three candidates of a search for "central". *)
Lemma relevance_ranking_witness :
  exists ranked,
    ranked ≡ₚ Spec.kept Scenario.candidates /\
    Forall2 Spec.suggests (take 8 ranked)
      (Main.autocomplete (F:=QFloat.instance) Py.lower "central" 200
         Scenario.candidates).
Proof.
  destruct (relevance_ranking (F:=QFloat.instance) Py.lower
              (PyFloatOrder0:=qfloat_order) "central" Scenario.candidates
              candidates_readable)
    as (score & ranked & _ & _ & Hperm & _ & _ & Hanswer).
  exists ranked. split; assumption.
Defined.

(** C8 fails as stated: the cafe survives the exclusion pass and is
    returned when it is the only candidate, but next to a candidate
    without a latitude nothing is returned. *)
Lemma unreadable_candidate_empties_answer :
  Main.skipped Scenario.central_cafe = Ok false /\
  Main.sg_display_name <$>
    Main.autocomplete (F:=QFloat.instance) Py.lower "central" 200
      [Scenario.central_cafe]
  = ["Central Cafe, Bangkok"] /\
  Main.skipped Scenario.unplaced_road = Ok false /\
  Main.autocomplete (F:=QFloat.instance) Py.lower "central" 200
    [Scenario.central_cafe; Scenario.unplaced_road] = [].
Proof. vm_compute. repeat split. Qed.

(** The country is dropped; the road and the cafe tie at 130 and keep
    their input order. *)
Example autocomplete_central :
  Main.sg_display_name <$>
    Main.autocomplete (F:=QFloat.instance) Py.lower "Central" 200 Scenario.candidates
  = ["Central Road, Pattaya"; "Central Cafe, Bangkok"].
Proof. vm_compute. reflexivity. Qed.

(** ** The endpoint, with its cache and its history *)

Section EndpointFacts.
Context {F : PyFloat}.
Variable json_dumps : list (string * Main.ParamValue) -> string.
Variable sha256_hexdigest : string -> string.
Variable value_ltb : Main.ParamValue -> Main.ParamValue -> bool.
Variable ttl : Z.
Import Main Spec.

Local Abbreviation analyze_market :=
  (Main.analyze_market json_dumps sha256_hexdigest value_ltb ttl).
Local Abbreviation cached P dir :=
  (forall file cached_time params data,
      dir !! file = Some (CacheManager.Entry cached_time params data) -> P data).

(** [get] never adds a file to the directory. *)
Lemma get_shrinks {V D} (dumps : list (string * V) -> string) sha vltb now
    (dir dir' : gmap string (CacheManager.cache_file V D)) kw (found : option D) file entry :
  CacheManager.get dumps sha vltb ttl now dir kw = (found, dir') ->
  dir' !! file = Some entry -> dir !! file = Some entry.
Proof.
  rewrite get_unfold. intros Hget Hfile.
  destruct (dir !! _) as [[|cached_time params data]|]; try (by injection Hget as _ <-).
  destruct (ttl <? now - cached_time); injection Hget as _ <-; [|assumption].
  apply lookup_delete_Some in Hfile. tauto.
Qed.

(** A request is answered from the cache or by a fresh computation; a
    property of every computed result that holds of the cached ones holds
    of the answer, and of the cache afterwards. *)
Lemma analyze_market_preserves (P : AnalysisResult -> Prop) clock req geo st r st' :
  (forall geo r, analyze_compute geo = Ok r -> P r) ->
  cached P (cache st) ->
  analyze_market clock req geo st = Ok (r, st') ->
  P r /\ cached P (cache st').
Proof.
  intros Hcompute Hcache. unfold Main.analyze_market.
  destruct (CacheManager.get _ _ _ _ _ _ _) as [found cache1] eqn:Hget.
  assert (Hcache1 : cached P cache1).
  { intros file cached_time params data Hfile.
    eapply Hcache, get_shrinks; [exact Hget|exact Hfile]. }
  destruct found as [data|].
  - intros [= <- <-]. split; [|exact Hcache1].
    apply get_found in Hget as (cached_time & params & Hfile & _ & _).
    by eapply Hcache.
  - destruct (negb _); [discriminate|].
    destruct (analyze_compute geo) as [result|e] eqn:Hresult; [|discriminate].
    cbn [mbind result_bind]. intros [= <- <-]. cbn [cache].
    split; [by eapply Hcompute|].
    intros file cached_time params data. unfold CacheManager.set.
    rewrite lookup_insert. case_decide as Hfile.
    + intros [= _ _ <-]. by eapply Hcompute.
    + apply Hcache1.
Qed.

(** A supported business type is always answered. *)
Theorem analyze_market_answers clock req geo st :
  req_business_type req ∈ BUSINESS_MAPPINGS ->
  exists r st', analyze_market clock req geo st = Ok (r, st').
Proof.
  intros Htype. unfold Main.analyze_market.
  destruct (CacheManager.get _ _ _ _ _ _ _) as [[data|] cache1]; [by eexists _, _|].
  rewrite bool_decide_eq_true_2 by assumption. cbn [negb].
  rewrite analyze_compute_eq. cbn [mbind result_bind]. by eexists _, _.
Qed.

(** Every answer, cached or fresh, has a [demand_count] that is the
    length of its [demand_points], at most 1000 and at most the sum of its
    breakdown, provided the cache holds such results. *)
Theorem analyze_market_counts clock req geo st :
  let consistent r :=
    demand_count r = length (demand_points r) /\
    (demand_count r <= 1000)%nat /\
    (demand_count r <= breakdown_total (demand_breakdown r))%nat in
  cached consistent (cache st) ->
  match analyze_market clock req geo st with
  | Ok (r, st') => consistent r /\ cached consistent (cache st')
  | Raise _ => True
  end.
Proof.
  cbn zeta. intros Hcache.
  destruct (analyze_market clock req geo st) as [[r st']|e] eqn:Hanswer; [|exact I].
  revert Hcache Hanswer. apply analyze_market_preserves. clear. intros geo r.
  rewrite analyze_compute_eq. intros [= <-]. cbn.
  destruct (fetch_demand_counts (rng geo) (demand_gdf geo)) as [-> Hlen].
  repeat split; lia.
Qed.

End EndpointFacts.

(** The dense district of [Scenario], asked on empty stores. *)
Lemma analyze_market_counts_witness :
  match Main.analyze_market Scenario.json_dumps Scenario.sha256_hexdigest
          Scenario.value_ltb Scenario.ttl Scenario.noon Scenario.bangkok_cafe
          Scenario.crowded_geo Scenario.empty_stores with
  | Ok (r, st') =>
      (Main.demand_count r = length (Main.demand_points r) /\
       (Main.demand_count r <= 1000)%nat /\
       (Main.demand_count r
        <= Main.breakdown_total (Main.demand_breakdown r))%nat) /\
      (forall file cached_time params data,
          Main.cache st' !! file = Some (CacheManager.Entry cached_time params data) ->
          Main.demand_count data = length (Main.demand_points data) /\
          (Main.demand_count data <= 1000)%nat /\
          (Main.demand_count data
           <= Main.breakdown_total (Main.demand_breakdown data))%nat)
  | Raise _ => True
  end.
Proof.
  apply (analyze_market_counts Scenario.json_dumps Scenario.sha256_hexdigest
           Scenario.value_ltb Scenario.ttl Scenario.noon Scenario.bangkok_cafe
           Scenario.crowded_geo Scenario.empty_stores).
  intros file cached_time params data Hfile.
  unfold Scenario.empty_stores in Hfile. cbn [Main.cache] in Hfile.
  rewrite lookup_empty in Hfile. discriminate Hfile.
Defined.

Lemma analyze_market_answers_witness :
  exists r st',
    Main.analyze_market Scenario.json_dumps Scenario.sha256_hexdigest
      Scenario.value_ltb Scenario.ttl Scenario.noon Scenario.bangkok_cafe
      Scenario.crowded_geo Scenario.empty_stores = Ok (r, st').
Proof.
  apply analyze_market_answers.
  unfold Scenario.bangkok_cafe, Main.BUSINESS_MAPPINGS.
  cbn [Main.req_business_type]. left.
Defined.

(** ** The examples of the specification *)

(** No competitor and 7 demand points: uncontested; 11 against 2: a
    score of 5.5, high potential; 15 against 10: 1.5, saturated; 401
    against 200 rounds to 2.0, which is not above 2. *)
Example score_examples :
  Main.calculate_score (F:=QFloat.instance) 0 7 = Ok (7 # 1, Uncontested, "#2980b9") /\
  Main.calculate_score (F:=QFloat.instance) 2 11 = Ok (11 # 2, HighPotential, "#27ae60") /\
  Main.calculate_score (F:=QFloat.instance) 4 11 = Ok (11 # 4, Balanced, "#f39c12") /\
  Main.calculate_score (F:=QFloat.instance) 10 15 = Ok (3 # 2, Saturated, "#c0392b") /\
  Main.calculate_score (F:=QFloat.instance) 200 401 = Ok (2 # 1, Saturated, "#c0392b") /\
  Main.calculate_score (F:=QFloat.instance) 0 0 = Ok (0 # 1, Saturated, "#c0392b").
Proof. vm_compute. repeat split. Qed.

Example growth_examples :
  Main.future_growth (Some 6%nat) = (Booming, 6%nat) /\
  Main.future_growth (Some 3%nat) = (Growing, 3%nat) /\
  Main.future_growth (Some 5%nat) = (Growing, 5%nat) /\
  Main.future_growth (Some 2%nat) = (Stable, 2%nat) /\
  Main.future_growth None = (Stable, 0%nat).
Proof. repeat split. Qed.

(** ** Sweeping the cache *)

Lemma endswith_append (s suffix : string) :
  Py.endswith (String.append s suffix) suffix = true.
Proof.
  induction s as [|c s IH]; simpl.
  - destruct suffix; simpl; [reflexivity|].
    by rewrite Ascii.eqb_refl, String.eqb_refl.
  - rewrite IH. apply orb_true_r.
Qed.

Section SweepFacts.
Context {V D : Type}.
Variable json_dumps : list (string * V) -> string.
Variable sha256_hexdigest : string -> string.
Variable value_ltb : V -> V -> bool.
Variable ttl : Z.

Local Abbreviation dir_t := (gmap string (CacheManager.cache_file V D)).
Local Abbreviation _generate_key :=
  (CacheManager._generate_key json_dumps sha256_hexdigest value_ltb).
Local Abbreviation get :=
  (CacheManager.get (D:=D) json_dumps sha256_hexdigest value_ltb ttl).
Local Abbreviation set :=
  (CacheManager.set (D:=D) json_dumps sha256_hexdigest value_ltb).
Local Abbreviation path kw := (CacheManager.cache_path (_generate_key kw)).
Local Abbreviation clear_expired := (CacheManager.clear_expired (V:=V) (D:=D) ttl).
Local Abbreviation clear_all := (CacheManager.clear_all (V:=V) (D:=D)).

(** The files of the cache are among those that the sweeps list. *)
Lemma path_is_json (kw : list (string * V)) : CacheManager.is_json (path kw) = true.
Proof. apply endswith_append. Qed.

(** A loop that deletes the files chosen by [remove] and counts them. *)
Lemma sweep_fold (remove : string -> CacheManager.cache_file V D -> bool)
    (step : string -> CacheManager.cache_file V D -> nat * dir_t -> nat * dir_t)
    (dir0 : dir_t) :
  (forall name file cleared dir,
      step name file (cleared, dir)
      = if remove name file then (S cleared, delete name dir) else (cleared, dir)) ->
  forall dir : dir_t,
    (map_fold step (0%nat, dir0) dir).1
    = size (filter (fun nf => remove nf.1 nf.2 = true) dir) /\
    forall name,
      (map_fold step (0%nat, dir0) dir).2 !! name
      = match dir !! name with
        | Some file => if remove name file then None else dir0 !! name
        | None => dir0 !! name
        end.
Proof.
  intros Hstep.
  apply (map_fold_weak_ind (fun (r : nat * dir_t) (dir : dir_t) =>
    r.1 = size (filter (fun nf => remove nf.1 nf.2 = true) dir) /\
    forall name,
      r.2 !! name
      = match dir !! name with
        | Some file => if remove name file then None else dir0 !! name
        | None => dir0 !! name
        end)).
  - split; [by rewrite map_filter_empty, map_size_empty|].
    intros name. by rewrite lookup_empty.
  - intros i x m [cleared dir] Hi [Hcount Hdir]. cbn [fst snd] in *.
    rewrite Hstep. destruct (remove i x) eqn:Hremove; cbn [fst snd].
    + split.
      * rewrite map_filter_insert_True by exact Hremove.
        rewrite map_size_insert_None; [by rewrite Hcount|].
        apply map_lookup_filter_None. by left.
      * intros name. destruct (decide (name = i)) as [->|Hne].
        -- by rewrite lookup_delete_eq, lookup_insert_eq, Hremove.
        -- rewrite lookup_delete_ne, lookup_insert_ne by done. apply Hdir.
    + split.
      * rewrite map_filter_insert_False by (cbn; congruence).
        by rewrite delete_id.
      * intros name. destruct (decide (name = i)) as [->|Hne].
        -- by rewrite Hdir, Hi, lookup_insert_eq, Hremove.
        -- rewrite lookup_insert_ne by done. apply Hdir.
Qed.

Lemma clear_all_fold (dir : dir_t) :
  (clear_all dir).1 = size (filter (fun nf => CacheManager.is_json nf.1 = true) dir) /\
  forall name,
    (clear_all dir).2 !! name = if CacheManager.is_json name then None else dir !! name.
Proof.
  destruct (sweep_fold (fun name _ => CacheManager.is_json name)
              (fun name (_ : CacheManager.cache_file V D) '(cleared, dir) =>
                 if CacheManager.is_json name
                 then (S cleared, delete name dir) else (cleared, dir))
              dir (fun _ _ _ _ => eq_refl) dir) as [Hcount Hdir].
  split; [exact Hcount|]. intros name.
  unfold CacheManager.clear_all. rewrite Hdir.
  destruct (dir !! name) eqn:Hname, (CacheManager.is_json name); congruence.
Qed.

Lemma no_json_left (dir : dir_t) :
  (forall name, CacheManager.is_json name = true -> dir !! name = None) ->
  size (filter (fun nf : string * CacheManager.cache_file V D =>
                  CacheManager.is_json nf.1 = true) dir) = 0%nat.
Proof.
  intros Hnone. apply map_size_empty_iff, map_empty. intros name.
  apply map_lookup_filter_None.
  destruct (CacheManager.is_json name) eqn:Hjson.
  - left. by apply Hnone.
  - right. intros file _. cbn [fst snd]. congruence.
Qed.

(** [clear_all] counts and deletes every file named [*.json], and only
    those; afterwards every [get] misses and a second [clear_all] finds
    nothing. *)
Theorem clear_all_empties (dir : dir_t) :
  (clear_all dir).1 = size (filter (fun nf => CacheManager.is_json nf.1 = true) dir) /\
  (forall name, CacheManager.is_json name = true -> (clear_all dir).2 !! name = None) /\
  (forall name, CacheManager.is_json name = false ->
                (clear_all dir).2 !! name = dir !! name) /\
  (forall now kw, get now (clear_all dir).2 kw = (None, (clear_all dir).2)) /\
  (clear_all (clear_all dir).2).1 = 0%nat.
Proof.
  destruct (clear_all_fold dir) as [Hcount Hdir].
  assert (Hgone : forall name, CacheManager.is_json name = true ->
                               (clear_all dir).2 !! name = None).
  { intros name Hjson. by rewrite Hdir, Hjson. }
  split; [exact Hcount|]. split; [exact Hgone|]. split; [|split].
  - intros name Hjson. by rewrite Hdir, Hjson.
  - intros now kw. rewrite get_unfold. by rewrite (Hgone _ (path_is_json kw)).
  - destruct (clear_all_fold (clear_all dir).2) as [-> _]. by apply no_json_left.
Qed.

(** Whether [clear_expired] deletes the file [name]. *)
Local Abbreviation swept clock :=
  (fun (name : string) (file : CacheManager.cache_file V D) =>
     CacheManager.is_json name &&
     match file with
     | CacheManager.Entry cached_time _ _ => ttl <? clock name - cached_time
     | CacheManager.Corrupt => false
     end).

Lemma clear_expired_fold clock (dir : dir_t) :
  (clear_expired clock dir).1
  = size (filter (fun nf => swept clock nf.1 nf.2 = true) dir) /\
  forall name,
    (clear_expired clock dir).2 !! name
    = match dir !! name with
      | Some file => if swept clock name file then None else Some file
      | None => None
      end.
Proof.
  edestruct (sweep_fold (swept clock)) as [Hcount Hdir]; cycle 1.
  - split; [exact Hcount|]. intros name.
    unfold CacheManager.clear_expired. rewrite Hdir.
    destruct (dir !! name) as [file|] eqn:Hname; [|reflexivity].
    by destruct (swept clock name file).
  - intros name file cleared dir'. cbn beta.
    destruct (CacheManager.is_json name); [|reflexivity].
    destruct file as [|cached_time params data]; [reflexivity|].
    cbn [andb]. by destruct (ttl <? clock name - cached_time).
Qed.

(** [clear_expired] counts and deletes exactly the [*.json] files that
    parse and whose age, when examined, exceeds the TTL; fresh entries,
    unreadable files and other files stay as they are, and a second sweep
    with the same clock readings finds nothing. *)
Theorem clear_expired_sweeps clock (dir : dir_t) :
  (clear_expired clock dir).1
  = size (filter (fun nf => swept clock nf.1 nf.2 = true) dir) /\
  (forall name,
      (clear_expired clock dir).2 !! name
      = match dir !! name with
        | Some file => if swept clock name file then None else Some file
        | None => None
        end) /\
  (clear_expired clock (clear_expired clock dir).2).1 = 0%nat.
Proof.
  destruct (clear_expired_fold clock dir) as [Hcount Hdir].
  split; [exact Hcount|]. split; [exact Hdir|].
  destruct (clear_expired_fold clock (clear_expired clock dir).2) as [-> _].
  apply map_size_empty_iff, map_empty. intros name.
  apply map_lookup_filter_None. right. intros file Hfile. cbn [fst snd].
  rewrite Hdir in Hfile. destruct (dir !! name) as [file'|]; [|discriminate].
  destruct (swept clock name file') eqn:Hswept; [discriminate|].
  injection Hfile as ->. congruence.
Qed.

(** A sweep is invisible to later reads: [get], at a time not before the
    readings of the sweep, returns what it would have returned without
    the sweep. *)
Theorem clear_expired_invisible clock (dir : dir_t) now kw :
  (forall name, clock name <= now) ->
  (get now (clear_expired clock dir).2 kw).1 = (get now dir kw).1.
Proof.
  intros Hclock. destruct (clear_expired_fold clock dir) as [_ Hdir].
  rewrite !get_unfold, Hdir, path_is_json.
  destruct (dir !! path kw) as [[|cached_time params data]|]; try reflexivity.
  cbn [andb].
  destruct (Z.ltb_spec ttl (clock (path kw) - cached_time)) as [Hold|Hfresh].
  - specialize (Hclock (path kw)).
    destruct (Z.ltb_spec ttl (now - cached_time)); [reflexivity|lia].
  - by destruct (ttl <? now - cached_time).
Qed.

(** A second [set] under the same parameters replaces the first, and a
    [set] under one key commutes with a [get] under another. *)
Theorem set_overwrites_and_commutes :
  (forall now1 now2 (dir : dir_t) data1 data2 kw,
      set now2 (set now1 dir data1 kw) data2 kw = set now2 dir data2 kw) /\
  (forall now1 now (dir : dir_t) data kw kw',
      path kw' <> path kw ->
      get now (set now1 dir data kw) kw'
      = ((get now dir kw').1, set now1 (get now dir kw').2 data kw)).
Proof.
  split.
  - intros. unfold CacheManager.set. apply insert_insert_eq.
  - intros now1 now dir data kw kw' Hpath. rewrite !get_unfold.
    unfold CacheManager.set at 1. rewrite lookup_insert_ne by done.
    destruct (dir !! path kw') as [[|cached_time params data']|]; try reflexivity.
    destruct (ttl <? now - cached_time); [|reflexivity].
    cbn [fst snd]. f_equal. unfold CacheManager.set.
    by rewrite delete_insert_ne.
Qed.

(** A result stored under parameters given in one order is found under
    the same parameters given in another order. *)
Theorem get_set_any_order now_set now (dir : dir_t) data (kw1 kw2 : list (string * V)) :
  NoDup (kw1.*1) -> kw1 ≡ₚ kw2 -> now - now_set <= ttl ->
  get now (set now_set dir data kw1) kw2 = (Some data, set now_set dir data kw1).
Proof.
  intros Hnd Hperm Hage.
  assert (Hkey : _generate_key kw2 = _generate_key kw1).
  { unfold CacheManager._generate_key.
    assert (Hnd2 : NoDup (kw2.*1)) by (by rewrite <- Hperm).
    rewrite !sorted_items_by_key by assumption.
    by rewrite (sorted_by_key_unique kw1 kw2). }
  rewrite get_unfold, Hkey, lookup_set.
  destruct (Z.ltb_spec ttl (now - now_set)); [lia|reflexivity].
Qed.

End SweepFacts.

(** ** Sorting and filtering *)

Section SortFilterFacts.
Context {A : Type}.
Variable ltb : A -> A -> bool.
Hypothesis ltb_negtrans :
  forall a b c, ltb a b = false -> ltb b c = false -> ltb a c = false.
Hypothesis ltb_asym : forall a b, ltb a b = true -> ltb b a = false.
Implicit Types (l : list A) (P : A -> bool).

Lemma insert_stable_head x l :
  Forall (fun y => ltb y x = false) l -> Py.insert_stable ltb x l = x :: l.
Proof. destruct 1 as [|y l Hy _]; simpl; [reflexivity|]. by rewrite Hy. Qed.

(** Inserting into a sorted list and filtering commute. *)
Lemma insert_stable_filter_sorted P x l :
  StronglySorted (fun a b => ltb b a = false) l ->
  filter P (Py.insert_stable ltb x l)
  = if P x then Py.insert_stable ltb x (filter P l) else filter P l.
Proof.
  induction 1 as [|y l Hl IH Hy]; simpl.
  - rewrite filter_cons, filter_nil. by destruct (P x).
  - destruct (ltb y x) eqn:Hyx.
    + rewrite !(filter_cons _ y), IH.
      destruct (decide (P y)) as [HPy|HPy]; [|reflexivity].
      destruct (P x); [|reflexivity]. simpl. by rewrite Hyx.
    + rewrite (filter_cons _ x).
      destruct (P x) eqn:HPx; simpl; [|reflexivity].
      rewrite insert_stable_head; [reflexivity|].
      apply Forall_forall. intros z Hz.
      apply list_elem_of_filter in Hz as [_ Hz].
      apply elem_of_cons in Hz as [->|Hz]; [exact Hyx|].
      rewrite Forall_forall in Hy.
      apply (ltb_negtrans z y x); [by apply Hy|exact Hyx].
Qed.

Lemma sorted_filter_commute P l :
  filter P (Py.sorted ltb l) = Py.sorted ltb (filter P l).
Proof.
  induction l as [|x l IH]; [reflexivity|]. simpl.
  rewrite insert_stable_filter_sorted by (by apply sorted_sorted).
  rewrite filter_cons, IH. destruct (P x); reflexivity.
Qed.

Lemma sorted_reverse_filter_commute P l :
  filter P (Py.sorted_reverse ltb l) = Py.sorted_reverse ltb (filter P l).
Proof.
  unfold Py.sorted_reverse.
  by rewrite filter_reverse, sorted_filter_commute, filter_reverse.
Qed.

(** A sorted list is left as it is. *)
Lemma sorted_of_sorted l :
  StronglySorted (fun a b => ltb b a = false) l -> Py.sorted ltb l = l.
Proof.
  induction 1 as [|x l Hl IH Hx]; [reflexivity|]. simpl. rewrite IH.
  by apply insert_stable_head.
Qed.

(** An item greater than all of a list is inserted at its end. *)
Lemma insert_stable_last x l :
  Forall (fun y => ltb y x = true) l -> Py.insert_stable ltb x l = l ++ [x].
Proof.
  induction 1 as [|y l Hy _ IH]; simpl; [reflexivity|]. by rewrite Hy, IH.
Qed.

(** On a strictly ascending list, the descending sort is the reversal. *)
Lemma sorted_reverse_ascending l :
  StronglySorted (fun a b => ltb a b = true) l ->
  Py.sorted_reverse ltb l = reverse l.
Proof.
  intros Hl. unfold Py.sorted_reverse. f_equal.
  induction l as [|x l IH] using rev_ind; [reflexivity|].
  apply StronglySorted_app in Hl as (Hx & Hl & _).
  rewrite reverse_snoc. simpl. rewrite IH by assumption.
  apply insert_stable_last, Forall_forall. intros y Hy.
  apply Hx; [exact Hy|left].
Qed.

End SortFilterFacts.

Lemma StronglySorted_weaken {A} (R R' : relation A) l :
  (forall a b, R a b -> R' a b) -> StronglySorted R l -> StronglySorted R' l.
Proof.
  intros HR. induction 1 as [|x l Hl IH Hx]; constructor; [exact IH|].
  eapply Forall_impl; [exact Hx|]. intros y. apply HR.
Qed.

Lemma StronglySorted_filter_bool {A} (R : relation A) (P : A -> Prop)
    `{!forall x, Decision (P x)} l :
  StronglySorted R l -> StronglySorted R (filter P l).
Proof.
  induction 1 as [|x l Hl IH Hx]; [constructor|].
  rewrite filter_cons. destruct (decide (P x)); [|exact IH].
  constructor; [exact IH|]. apply Forall_forall. intros y Hy.
  apply list_elem_of_filter in Hy as [_ Hy].
  rewrite Forall_forall in Hx. by apply Hx.
Qed.

Lemma slice_to_length {A} n (l : list A) :
  length (Py.slice_to n l)
  = if 0 <=? n then Nat.min (Z.to_nat n) (length l)
    else (length l - Z.to_nat (- n))%nat.
Proof.
  unfold Py.slice_to. destruct (0 <=? n); rewrite length_take; lia.
Qed.

(** ** Querying the history *)

Section HistoryQueryFacts.
Context {F : PyFloat}.
Import HistoryManager Spec.

Lemma timestamp_ltb_negtrans (a b c : HistoryEntry) :
  timestamp_ltb a b = false -> timestamp_ltb b c = false -> timestamp_ltb a c = false.
Proof. unfold timestamp_ltb. rewrite !Z.ltb_ge. lia. Qed.

Lemma timestamp_ltb_asym (a b : HistoryEntry) :
  timestamp_ltb a b = true -> timestamp_ltb b a = false.
Proof. unfold timestamp_ltb. rewrite Z.ltb_lt, Z.ltb_ge. lia. Qed.

(** [get_history] returns the newest of the matching entries, newest
    first: the result, followed by the matching entries it leaves out, is
    the whole of the matching entries in descending order of time.  A
    limit of at least 0 caps the length; a negative limit [-k] leaves the
    [k] oldest out. *)
Theorem get_history_newest_first (limit : Z) (business_type : option string)
    (file : history_file) :
  let history := _load_history file in
  let matching :=
    match business_type with
    | Some t => if negb (String.eqb t "")
                then filter (fun h => he_business_type h = t) history
                else history
    | None => history
    end in
  let result := get_history limit business_type file in
  exists older,
    result ++ older ≡ₚ matching /\
    StronglySorted (fun a b => he_timestamp b <= he_timestamp a) (result ++ older) /\
    length result
    = if 0 <=? limit then Nat.min (Z.to_nat limit) (length matching)
      else (length matching - Z.to_nat (- limit))%nat.
Proof.
  cbn zeta. unfold get_history.
  set (matching := match business_type with
                   | Some t => _
                   | None => _
                   end).
  set (ranked := Py.sorted_reverse timestamp_ltb matching).
  assert (Hperm : ranked ≡ₚ matching) by apply sorted_reverse_perm.
  assert (Hsorted : StronglySorted (fun a b => he_timestamp b <= he_timestamp a) ranked).
  { apply (StronglySorted_weaken (fun a b => timestamp_ltb a b = false)).
    - intros a b. unfold timestamp_ltb. by rewrite Z.ltb_ge.
    - apply (sorted_reverse_sorted timestamp_ltb).
      + apply timestamp_ltb_negtrans.
      + apply timestamp_ltb_asym. }
  rewrite slice_to_length, (Permutation_length Hperm).
  unfold Py.slice_to. destruct (0 <=? limit).
  - exists (drop (Z.to_nat limit) ranked). by rewrite take_drop.
  - exists (drop (length ranked - Z.to_nat (- limit)) ranked). by rewrite take_drop.
Qed.

(** When the log is in strictly increasing order of time (each entry
    was logged at a later clock reading than the one before), the
    history is the matching entries in reverse order of insertion, cut
    to the limit. *)
Theorem get_history_chronological (limit : Z) (business_type : option string)
    (file : history_file) :
  StronglySorted (fun a b => he_timestamp a < he_timestamp b) (_load_history file) ->
  get_history limit business_type file
  = Py.slice_to limit
      (reverse
         match business_type with
         | Some t => if negb (String.eqb t "")
                     then filter (fun h => he_business_type h = t) (_load_history file)
                     else _load_history file
         | None => _load_history file
         end).
Proof.
  intros Hlog. unfold get_history. f_equal.
  apply sorted_reverse_ascending.
  apply (StronglySorted_weaken (fun a b => he_timestamp a < he_timestamp b)).
  { intros a b. unfold timestamp_ltb. by rewrite Z.ltb_lt. }
  destruct business_type as [t|]; [|exact Hlog].
  destruct (negb (String.eqb t "")); [|exact Hlog].
  by apply StronglySorted_filter_bool.
Qed.

Section LocationFacts.
Variable float_sub : float -> float -> float.
Variable float_abs : float -> float.
Variable float_leb : float -> float -> bool.

(** The history of a location is the whole newest-first history with the
    entries outside the tolerance box left out. *)
Theorem get_location_history_filters_history (lat lon tolerance : float)
    (file : history_file) :
  get_location_history float_sub float_abs float_leb lat lon tolerance file
  = filter (fun entry =>
              within_tolerance float_sub float_abs float_leb lat lon tolerance entry
              = true)
      (get_history (Z.of_nat (length (_load_history file))) None file).
Proof.
  unfold get_location_history, get_history, Py.slice_to.
  destruct (Z.leb_spec 0 (Z.of_nat (length (_load_history file)))); [|lia].
  rewrite take_ge
    by (rewrite (Permutation_length (sorted_reverse_perm _ _)); lia).
  set (P := within_tolerance float_sub float_abs float_leb lat lon tolerance).
  rewrite (list_filter_iff (fun entry => P entry = true) (fun entry => P entry))
    by (intros entry; symmetry; apply Is_true_true).
  rewrite (list_filter_iff (fun entry => P entry = true) (fun entry => P entry)
             (Py.sorted_reverse _ _))
    by (intros entry; symmetry; apply Is_true_true).
  symmetry. apply sorted_reverse_filter_commute.
  - apply timestamp_ltb_negtrans.
  - apply timestamp_ltb_asym.
Qed.

End LocationFacts.

(** The statistics of a log that is not empty. *)
Lemma get_statistics_nonempty (file : history_file) e h :
  _load_history file = e :: h ->
  exists stats,
    get_statistics file = Ok stats /\
    total_analyses stats = S (length h) /\
    date_range stats = Some (Some (he_timestamp e), he_timestamp <$> last (e :: h)).
Proof.
  intros Hload. unfold get_statistics. rewrite Hload, tally_eq.
  pose proof (histogram_counts (e :: h) [] (he_business_type e)) as Hcount.
  rewrite count_type_cons, bool_decide_eq_true_2 in Hcount by reflexivity.
  match type of Hcount with
  | context [fold_left ?f (e :: h) []] =>
      destruct (fold_left f (e :: h) []) as [|b bts]
  end; [simpl in Hcount; lia|].
  destruct (max_by_spec snd b bts) as (m & Hm & _ & _).
  destruct (last (e :: h)) as [e'|] eqn:Hlast;
    [|apply last_None in Hlast; discriminate].
  unfold Py.truediv, Py.last_item, Py.first_item. rewrite Hlast.
  destruct (Z.eqb_spec (Z.of_nat (length (e :: h))) 0) as [Hz|_];
    [simpl in Hz; lia|].
  cbn [mbind result_bind]. rewrite Hm. cbn [mbind result_bind].
  eexists. split; [reflexivity|]. split; reflexivity.
Qed.

Lemma add_analysis_log now (file : history_file) lat lon business_type radius result :
  exists kept,
    _load_history (add_analysis now file lat lon business_type radius result)
    = kept ++ [{| he_timestamp := now;
                  he_location := {| loc_lat := float_round lat 6;
                                    loc_lon := float_round lon 6 |};
                  he_business_type := business_type;
                  he_radius := radius;
                  he_result := result |}] /\
    length kept = Nat.min (length (_load_history file)) 99 /\
    exists evicted, _load_history file = evicted ++ kept.
Proof.
  unfold add_analysis, _save_history. cbn [_load_history].
  set (log := _load_history file). set (entry := Build_HistoryEntry _ _ _ _ _).
  rewrite length_app. cbn [length].
  destruct (Nat.ltb_spec 100 (length log + 1)) as [Hfull|Hroom].
  - exists (drop (length log - 99) log). unfold Py.slice_last.
    rewrite length_app. cbn [length].
    replace (length log + 1 - 100)%nat with (length log - 99)%nat by lia.
    rewrite drop_app_le by lia. split; [reflexivity|].
    rewrite length_drop. split; [lia|].
    exists (take (length log - 99) log). by rewrite take_drop.
  - exists log. split; [reflexivity|]. split; [lia|]. by exists [].
Qed.

(** After [add_analysis] the statistics count one entry more, up to the
    cap of 100, and their date range ends at the time of the call. *)
Theorem add_analysis_then_statistics now (file : history_file)
    lat lon business_type radius result :
  exists stats first,
    get_statistics (add_analysis now file lat lon business_type radius result)
    = Ok stats /\
    total_analyses stats = Nat.min (S (length (_load_history file))) 100 /\
    date_range stats = Some (Some first, Some now).
Proof.
  destruct (add_analysis_log now file lat lon business_type radius result)
    as (kept & Hlog & Hkept & _).
  destruct (_load_history (add_analysis now file lat lon business_type radius result))
    as [|e h] eqn:Hload; [by destruct kept|].
  destruct (get_statistics_nonempty _ e h Hload) as (stats & Hstats & Htotal & Hrange).
  exists stats, (he_timestamp e). split; [exact Hstats|].
  assert (Hlen : S (length h) = S (length kept)).
  { change (S (length h)) with (length (e :: h)).
    rewrite Hlog, length_app. simpl. lia. }
  split; [lia|].
  by rewrite Hrange, Hlog, last_snoc.
Qed.

(** [clear_history] reports how many entries it drops, also mends an
    unreadable file, and leaves a log on which the statistics are zeroed,
    every query is empty and the next [add_analysis] stands alone. *)
Theorem clear_history_resets (file : history_file) :
  (clear_history file).1 = length (_load_history file) /\
  (clear_history file).2 = Saved [] /\
  get_statistics (clear_history file).2
  = Ok {| total_analyses := 0; business_types := [];
          average_score := float_of_int 0;
          most_analyzed_type := None; date_range := None |} /\
  (forall limit business_type,
      get_history limit business_type (clear_history file).2 = []) /\
  (forall now lat lon business_type radius result,
      length (_load_history
                (add_analysis now (clear_history file).2
                   lat lon business_type radius result)) = 1%nat).
Proof.
  repeat split.
  intros limit business_type. unfold get_history, clear_history, Py.slice_to.
  cbn [snd _load_history _save_history].
  assert (Hnone : Py.sorted_reverse timestamp_ltb (@nil HistoryEntry) = []) by reflexivity.
  destruct business_type as [t|]; [destruct (negb (String.eqb t ""))|];
    rewrite ?filter_nil, Hnone; destruct (0 <=? limit); apply take_nil.
Qed.

End HistoryQueryFacts.

(** ** Requests against the cache and the history *)

Section RequestFacts.
Context {F : PyFloat}.
Variable json_dumps : list (string * Main.ParamValue) -> string.
Variable sha256_hexdigest : string -> string.
Variable value_ltb : Main.ParamValue -> Main.ParamValue -> bool.
Variable ttl : Z.
Import Main Spec.

Local Abbreviation analyze_market :=
  (Main.analyze_market json_dumps sha256_hexdigest value_ltb ttl).
Local Abbreviation get :=
  (CacheManager.get (D:=AnalysisResult) json_dumps sha256_hexdigest value_ltb ttl).
Local Abbreviation set :=
  (CacheManager.set (D:=AnalysisResult) json_dumps sha256_hexdigest value_ltb).
Local Abbreviation path req :=
  (CacheManager.cache_path
     (CacheManager._generate_key json_dumps sha256_hexdigest value_ltb
        (cache_key_params req))).

(** A miss on a supported business type: the result is computed, cached
    and logged. *)
Lemma analyze_market_miss clock req geo st cache1 :
  get (now_get clock) (cache st) (cache_key_params req) = (None, cache1) ->
  req_business_type req ∈ BUSINESS_MAPPINGS ->
  exists r,
    analyze_compute geo = Ok r /\
    analyze_market clock req geo st
    = Ok (r, {| cache := set (now_set clock) cache1 r (cache_key_params req);
                history :=
                  HistoryManager.add_analysis (now_add clock) (history st)
                    (req_lat req) (req_lon req) (req_business_type req)
                    (req_radius req) (summary r) |}).
Proof.
  intros Hget Htype. unfold Main.analyze_market, cache_key_params in *.
  rewrite Hget, bool_decide_eq_true_2 by assumption. cbn [negb].
  rewrite analyze_compute_eq. cbn [mbind result_bind].
  eexists. split; reflexivity.
Qed.

(** A hit: the stored result is returned and nothing changes. *)
Lemma analyze_market_hit clock req geo st cached_time params data :
  cache st !! path req = Some (CacheManager.Entry cached_time params data) ->
  now_get clock - cached_time <= ttl ->
  analyze_market clock req geo st = Ok (data, st).
Proof.
  intros Hfile Hage. unfold Main.analyze_market.
  change [("lat", PFloat (float_round (req_lat req) 4));
          ("lon", PFloat (float_round (req_lon req) 4));
          ("business_type", PStr (req_business_type req));
          ("radius", PInt (req_radius req))] with (cache_key_params req).
  rewrite get_unfold, Hfile.
  destruct (Z.ltb_spec ttl (now_get clock - cached_time)); [lia|].
  by destruct st.
Qed.

(** A request that was just computed is served from the cache to every
    request with the same rounded location, business type and radius that
    arrives within the TTL: the same result comes back, whatever the
    geodata would now say, and neither the cache nor the history changes. *)
Theorem repeated_request_served_from_cache clock1 clock2 req1 req2 geo1 geo2 st :
  (get (now_get clock1) (cache st) (cache_key_params req1)).1 = None ->
  req_business_type req1 ∈ BUSINESS_MAPPINGS ->
  cache_key_params req2 = cache_key_params req1 ->
  now_get clock2 - now_set clock1 <= ttl ->
  exists r st1,
    analyze_compute geo1 = Ok r /\
    analyze_market clock1 req1 geo1 st = Ok (r, st1) /\
    analyze_market clock2 req2 geo2 st1 = Ok (r, st1).
Proof.
  intros Hmiss Htype Hsame Hage.
  destruct (get (now_get clock1) (cache st) (cache_key_params req1))
    as [found cache1] eqn:Hget.
  cbn [fst] in Hmiss. subst found.
  destruct (analyze_market_miss clock1 req1 geo1 st cache1 Hget Htype)
    as (r & Hr & Hfirst).
  eexists r, _. split; [exact Hr|]. split; [exact Hfirst|].
  eapply analyze_market_hit; [|exact Hage].
  cbn [cache]. rewrite Hsame. apply lookup_set.
Qed.

(** What a computed analysis leaves behind: the result is stored in the
    cache under the request's parameters, stamped with the time of the
    write, and one entry is appended to the history, with the location
    rounded to 6 digits and the six summary fields of the result; the
    history keeps its last 100 entries. *)
Theorem fresh_analysis_effects clock req geo st :
  (get (now_get clock) (cache st) (cache_key_params req)).1 = None ->
  req_business_type req ∈ BUSINESS_MAPPINGS ->
  exists r st',
    analyze_market clock req geo st = Ok (r, st') /\
    analyze_compute geo = Ok r /\
    cache st' !! path req
    = Some (CacheManager.Entry (now_set clock) (cache_key_params req) r) /\
    HistoryManager._load_history (history st')
    = Py.slice_last 100
        (HistoryManager._load_history (history st)
           ++ [logged_entry (now_add clock) req r]).
Proof.
  intros Hmiss Htype.
  destruct (get (now_get clock) (cache st) (cache_key_params req))
    as [found cache1] eqn:Hget.
  cbn [fst] in Hmiss. subst found.
  destruct (analyze_market_miss clock req geo st cache1 Hget Htype)
    as (r & Hr & Hanswer).
  eexists r, _. split; [exact Hanswer|]. split; [exact Hr|].
  cbn [cache history]. split; [apply lookup_set|].
  unfold HistoryManager.add_analysis, HistoryManager._save_history, logged_entry.
  cbn [HistoryManager._load_history].
  match goal with |- context [(100 <? ?n)%nat] => destruct (Nat.ltb_spec 100 n) end.
  - reflexivity.
  - symmetry. by apply slice_last_short.
Qed.

Section ValidationFacts.
Variable float_leb : float -> float -> bool.

(** A request is built exactly when the latitude, the longitude, the
    business type and a given radius pass their checks; a request that
    was built is always answered by [analyze_market], whose own check of
    the business type can then not fail. *)
Theorem validated_request_is_answered lat lon business_type radius req clock geo st :
  parse_request float_leb lat lon business_type radius = Ok req ->
  (req = {| req_lat := lat; req_lon := lon; req_business_type := business_type;
            req_radius := default 1000 radius |} /\
   float_leb (float_of_int (-90)) lat = true /\ float_leb lat (float_of_int 90) = true /\
   float_leb (float_of_int (-180)) lon = true /\ float_leb lon (float_of_int 180) = true /\
   business_type ∈ BUSINESS_MAPPINGS /\
   100 <= req_radius req <= 5000) /\
  exists r st', analyze_market clock req geo st = Ok (r, st').
Proof.
  unfold parse_request, validate_lat, validate_lon, validate_business_type,
    validate_radius.
  destruct (float_leb (float_of_int (-90)) lat) eqn:Hlat1; [|discriminate].
  destruct (float_leb lat (float_of_int 90)) eqn:Hlat2; [|discriminate].
  destruct (float_leb (float_of_int (-180)) lon) eqn:Hlon1; [|discriminate].
  destruct (float_leb lon (float_of_int 180)) eqn:Hlon2; [|discriminate].
  cbn [andb negb mbind result_bind].
  case_bool_decide as Htype; [|discriminate]. cbn [negb mbind result_bind].
  intros Hreq.
  assert (Hradius : req = {| req_lat := lat; req_lon := lon;
                             req_business_type := business_type;
                             req_radius := default 1000 radius |}
                    /\ 100 <= default 1000 radius <= 5000).
  { destruct radius as [v|]; cbn [default from_option id mbind result_bind] in *.
    - destruct (Z.leb_spec 100 v), (Z.leb_spec v 5000);
        cbn [andb negb mbind result_bind] in Hreq; try discriminate.
      injection Hreq as <-. split; [reflexivity|lia].
    - injection Hreq as <-. split; [reflexivity|lia]. }
  destruct Hradius as [-> Hradius]. cbn [req_radius].
  split; [repeat split; (assumption || lia)|].
  destruct (get (now_get clock) (cache st) (cache_key_params
              {| req_lat := lat; req_lon := lon;
                 req_business_type := business_type;
                 req_radius := default 1000 radius |}))
    as [[data|] cache1] eqn:Hget.
  - apply get_found in Hget as (cached_time & params & Hfile & Hage & _).
    eexists _, _. by eapply analyze_market_hit.
  - edestruct analyze_market_miss as (r & _ & Hanswer); [exact Hget|exact Htype|].
    by eexists _, _.
Qed.

End ValidationFacts.

End RequestFacts.

(** ** Supply points and demand groups *)

Section FetchFacts.
Context {F : PyFloat}.
Import Main Spec.

Lemma assign_group_first cells pre val post group :
  cells = pre ++ val :: post ->
  Forall (fun v => demand_tags_map v = None) pre ->
  demand_tags_map val = Some group ->
  assign_group cells = Some group.
Proof.
  intros -> Hpre Hval. induction Hpre as [|v pre Hv _ IH]; simpl.
  - by rewrite Hval.
  - by rewrite Hv.
Qed.

Lemma assign_group_none cells :
  Forall (fun v => demand_tags_map v = None) cells -> assign_group cells = None.
Proof. induction 1 as [|v cells Hv _ IH]; simpl; [reflexivity|]. by rewrite Hv. Qed.

Lemma classify_row_category (row : DemandRow) b :
  classify_row (dr_cells row) b = breakdown_incr (category_of row) b.
Proof. unfold classify_row, category_of. by destruct (assign_group _). Qed.

Lemma breakdown_get_incr group group' b :
  breakdown_get group (breakdown_incr group' b)
  = (breakdown_get group b + if decide (group' = group) then 1 else 0)%nat.
Proof. destruct group, group'; simpl; lia. Qed.

Lemma classify_rows_group group (rows : list DemandRow) b :
  breakdown_get group
    (fold_left (fun b row => classify_row (dr_cells row) b) rows b)
  = (breakdown_get group b + count_group group rows)%nat.
Proof.
  unfold count_group. revert b.
  induction rows as [|row rows IH]; intros b; simpl; [lia|].
  rewrite IH, classify_row_category, breakdown_get_incr, filter_cons.
  destruct (decide (category_of row = group)); simpl; lia.
Qed.

(** Each count of the breakdown is the number of fetched demand rows of
    that group, where a row belongs to the group of its first cell that
    is a demand tag, whatever its later cells say, and to Residential
    when no cell is one. *)
Theorem breakdown_counts_by_first_tag (geo : GeoData) :
  (exists r,
      analyze_compute geo = Ok r /\
      forall group,
        breakdown_get group (demand_breakdown r)
        = count_group group (default [] (demand_gdf geo))) /\
  (forall (row : DemandRow) pre val post group,
      dr_cells row = pre ++ val :: post ->
      Forall (fun v => demand_tags_map v = None) pre ->
      demand_tags_map val = Some group ->
      category_of row = group) /\
  (forall row : DemandRow,
      Forall (fun v => demand_tags_map v = None) (dr_cells row) ->
      category_of row = Residential).
Proof.
  split; [|split].
  - eexists. split; [apply analyze_compute_eq|]. cbn. intros group.
    destruct (demand_gdf geo) as [[|row rows]|]; cbn [default from_option id];
      try (by destruct group).
    unfold fetch_demand. cbn [snd]. rewrite classify_rows_group.
    by destruct group.
  - intros row pre val post group Hcells Hpre Hval. unfold category_of.
    by rewrite (assign_group_first _ pre val post group).
  - intros row Hcells. unfold category_of. by rewrite assign_group_none.
Qed.

(** The loop of section A reads the rows up to the first centroid that
    cannot be read, and appends the points of those rows. *)
Lemma supply_loop_spec (rows : list SupplyRow) (supply_points : list SupplyPoint) :
  exists before rest,
    rows = before ++ rest /\
    Forall (fun row => is_Some (sr_centroid row)) before /\
    supply_loop rows supply_points
    = (supply_points ++ omap listed before, bool_decide (rest = [])) /\
    (rest = [] \/ exists row rest', rest = row :: rest' /\ sr_centroid row = None).
Proof.
  revert supply_points. induction rows as [|row rows IH]; intros supply_points.
  - exists [], []. split; [reflexivity|]. split; [constructor|].
    split; [|by left]. cbn. by rewrite app_nil_r.
  - cbn [supply_loop]. destruct (sr_centroid row) as [[y x]|] eqn:Hrow.
    + set (points' := if negb (float_isna y) && negb (float_isna x)
                      then supply_points
                           ++ [{| sp_lat := y; sp_lon := x;
                                  sp_name := default "Unknown" (sr_name row) |}]
                      else supply_points).
      destruct (IH points') as (before & rest & -> & Hread & Hloop & Hrest).
      exists (row :: before), rest. split; [reflexivity|].
      split; [constructor; [by rewrite Hrow|exact Hread]|]. split; [|exact Hrest].
      cbn [omap list_omap]. unfold listed at 1. rewrite Hrow. cbn [mbind option_bind].
      subst points'. destruct (negb (float_isna y) && negb (float_isna x)).
      * rewrite Hloop, <- app_assoc. reflexivity.
      * exact Hloop.
    + exists [], (row :: rows). split; [reflexivity|]. split; [constructor|].
      split; [|right; by exists row, rows]. cbn. by rewrite app_nil_r.
Qed.

Lemma listed_spec (row : SupplyRow) p :
  listed row = Some p ->
  float_isna (sp_lat p) = false /\ float_isna (sp_lon p) = false /\
  sr_centroid row = Some (sp_lat p, sp_lon p) /\
  sp_name p = default "Unknown" (sr_name row).
Proof.
  unfold listed. destruct (sr_centroid row) as [[y x]|]; [|discriminate].
  cbn [mbind option_bind].
  destruct (float_isna y) eqn:Hy; [discriminate|].
  destruct (float_isna x) eqn:Hx; [discriminate|].
  cbn. intros [= <-]. done.
Qed.

(** The supply points are those of the fetched rows, in order, up to the
    first row whose centroid cannot be read, the rows with a NaN coordinate
    left out; each carries the coordinates of its row and its name, or
    ["Unknown"] for a row without a name.  The supply count is the number
    of points when every centroid could be read, and 0 when one could not,
    whatever points are listed. *)
Theorem supply_points_are_counted (geo : GeoData) :
  exists r before rest,
    analyze_compute geo = Ok r /\
    default [] (supply_gdf geo) = before ++ rest /\
    Forall (fun row => is_Some (sr_centroid row)) before /\
    supply_points r = omap listed before /\
    ((rest = [] /\ supply_count r = length (supply_points r)) \/
     (exists row rest', rest = row :: rest' /\ sr_centroid row = None /\
                        supply_count r = 0%nat)) /\
    forall p, p ∈ supply_points r ->
      float_isna (sp_lat p) = false /\ float_isna (sp_lon p) = false /\
      exists row, row ∈ default [] (supply_gdf geo) /\
                  sr_centroid row = Some (sp_lat p, sp_lon p) /\
                  sp_name p = default "Unknown" (sr_name row).
Proof.
  assert (Hpoints : forall before rest p,
             p ∈ omap listed before ->
             float_isna (sp_lat p) = false /\ float_isna (sp_lon p) = false /\
             exists row, row ∈ before ++ rest /\
                         sr_centroid row = Some (sp_lat p, sp_lon p) /\
                         sp_name p = default "Unknown" (sr_name row)).
  { intros before rest p Hp. apply list_elem_of_omap in Hp as (row & Hrow & Hp).
    apply listed_spec in Hp as (Hy & Hx & Hc & Hn).
    split; [exact Hy|]. split; [exact Hx|]. exists row.
    split; [apply elem_of_app; by left|by split]. }
  destruct (supply_gdf geo) as [[|row rows]|] eqn:Hgdf.
  - eexists _, [], []. split; [apply analyze_compute_eq|]. rewrite Hgdf. cbn.
    split; [reflexivity|]. split; [constructor|]. split; [reflexivity|].
    split; [by left|]. intros p Hp. by apply elem_of_nil in Hp.
  - destruct (supply_loop_spec (row :: rows) [])
      as (before & rest & Hrows & Hread & Hloop & Hrest).
    eexists _, before, rest. split; [apply analyze_compute_eq|]. rewrite Hgdf.
    unfold fetch_supply. rewrite Hloop. cbn [fst snd default from_option id app
      supply_points supply_count].
    split; [exact Hrows|]. split; [exact Hread|]. split; [reflexivity|]. split.
    + destruct Hrest as [->|(row' & rest' & -> & Hnone)].
      * left. by rewrite bool_decide_eq_true_2.
      * right. exists row', rest'. rewrite bool_decide_eq_false_2 by discriminate.
        by repeat split.
    + rewrite Hrows. apply Hpoints.
  - eexists _, [], []. split; [apply analyze_compute_eq|]. rewrite Hgdf. cbn.
    split; [reflexivity|]. split; [constructor|]. split; [reflexivity|].
    split; [by left|]. intros p Hp. by apply elem_of_nil in Hp.
Qed.

(** The four counts of the breakdown sum to the number of fetched demand
    rows, none when the fetch failed.  [demand_count] is that number capped
    at 1000 when every centroid can be read; otherwise it is that, or the
    point list is empty and [demand_count] is 0 while the breakdown stays as
    counted, and then some fetched row has a centroid that cannot be
    read. *)
Theorem breakdown_sums_to_fetched_rows (geo : GeoData) :
  exists r,
    analyze_compute geo = Ok r /\
    breakdown_total (demand_breakdown r) = raw_demand_count geo /\
    (demand_count r = Nat.min (raw_demand_count geo) 1000 \/
     (demand_count r = 0%nat /\ demand_points r = [] /\
      Exists (fun row => dr_centroid row = None) (default [] (demand_gdf geo)))) /\
    (Forall (fun row => is_Some (dr_centroid row)) (default [] (demand_gdf geo)) ->
     demand_count r = Nat.min (raw_demand_count geo) 1000).
Proof.
  eexists. split; [apply analyze_compute_eq|]. cbn. unfold raw_demand_count.
  destruct (fetch_demand_counts (rng geo) (demand_gdf geo)) as [Hsum _].
  split; [exact Hsum|]. split.
  - destruct (demand_gdf geo) as [[|row rows]|]; cbn [default from_option id];
      try (left; reflexivity).
    unfold fetch_demand. cbn [fst].
    set (shown := if (1000 <? length (row :: rows))%nat then _ else _).
    destruct (mapM dr_centroid shown) as [centroids|] eqn:Hm.
    + left. rewrite length_map. apply length_mapM in Hm. rewrite <- Hm.
      subst shown. destruct (Nat.ltb_spec 1000 (length (row :: rows))).
      * rewrite sample_length. lia.
      * lia.
    + right. split; [reflexivity|]. split; [reflexivity|].
      apply mapM_None in Hm. apply Exists_exists in Hm as (r & Hr & Hnone).
      apply Exists_exists. exists r. split; [|exact Hnone].
      subst shown. destruct (1000 <? length (row :: rows))%nat; [|exact Hr].
      by apply sample_subseteq in Hr.
  - intros Hread. destruct (demand_gdf geo) as [rows|]; [|reflexivity].
    by apply fetch_demand_readable.
Qed.

End FetchFacts.

(** ** What the search returns *)

Section SuggestionFacts.
Context {F : PyFloat}.
Variable lower : string -> string.
Import Main Spec.

(** A response other than 200 yields no suggestion; otherwise at most 8
    are returned, each the name and coordinates of a candidate that the
    exclusion pass kept, and the candidates the loop passes over have no
    influence on the outcome. *)
Theorem autocomplete_only_survivors (query : string) (status_code : Z)
    (data : list SearchItem) :
  (status_code <> 200 -> autocomplete lower query status_code data = []) /\
  (length (autocomplete lower query status_code data) <= 8)%nat /\
  (forall s, s ∈ autocomplete lower query status_code data ->
             exists item, item ∈ data /\ skipped item = Ok false /\
                          display_name item = Some (sg_display_name s) /\
                          item_lat item = Some (sg_lat s) /\
                          item_lon item = Some (sg_lon s)) /\
  autocomplete lower query status_code data
  = autocomplete lower query status_code
      (filter (fun item => passed_over lower query item = false) data).
Proof.
  unfold autocomplete, Py.slice_first.
  destruct (Z.eqb_spec status_code 200) as [->|Hstatus]; cbn [negb].
  - rewrite score_results_passed_over.
    destruct (score_results lower query data) as [results|e] eqn:Hresults.
    + split; [done|]. split; [rewrite length_map, length_take; lia|].
      split; [|reflexivity].
      intros s Hs. apply list_elem_of_fmap in Hs as (r & -> & Hr).
      apply elem_of_take in Hr as (i & Hr & _).
      apply list_elem_of_lookup_2 in Hr.
      rewrite sorted_reverse_perm in Hr.
      destruct (score_results_elem lower query data results r Hresults Hr)
        as (item & Hin & Hbody).
      apply loop_body_Some in Hbody. by exists item.
    + split; [done|]. split; [simpl; lia|]. split; [|reflexivity].
      intros s Hs. by apply elem_of_nil in Hs.
  - split; [done|]. split; [simpl; lia|]. split; [|reflexivity].
    intros s Hs. by apply elem_of_nil in Hs.
Qed.

Lemma score_results_raises query (data : list SearchItem) :
  Exists (fun item => exists e, loop_body lower query item = Raise e) data ->
  exists e, score_results lower query data = Raise e.
Proof.
  induction data as [|item data IH]; intros Hraise.
  - by apply Exists_nil in Hraise.
  - cbn [score_results].
    destruct (loop_body lower query item) as [appended|e] eqn:Hbody; [|by exists e].
    apply Exists_cons in Hraise as [[e He]|Hraise]; [congruence|].
    destruct (IH Hraise) as [e ->]. by exists e.
Qed.

(** A candidate that cannot be read empties the answer.  The loop body
    raises on a candidate whose importance cannot be read, on an
    administrative boundary with a country in its address and no display
    name, and on a candidate that is not skipped and lacks a display name,
    a latitude or a longitude; when it raises on some candidate, no
    suggestion is returned. *)
Theorem autocomplete_unreadable (query : string) (status_code : Z)
    (data : list SearchItem) :
  (forall item,
      (exists e, loop_body lower query item = Raise e) <->
      importance item = None \/
      (exists e, skipped item = Raise e) \/
      (skipped item = Ok false /\
       (display_name item = None \/ item_lat item = None \/ item_lon item = None))) /\
  (forall item,
      (exists e, skipped item = Raise e) <->
      place_class item = "boundary" /\ place_type item = "administrative" /\
      has_country item /\ display_name item = None) /\
  (Exists (fun item => exists e, loop_body lower query item = Raise e) data ->
   autocomplete lower query status_code data = []).
Proof.
  split; [|split].
  - intros item. unfold loop_body.
    destruct (importance item) as [imp|]; cbn [Py.read mbind result_bind].
    + destruct (skipped item) as [[|]|e]; cbn [mbind result_bind].
      * split; [intros [e He]; discriminate He|].
        intros [Himp|[[e He]|[Hs _]]]; discriminate.
      * destruct (display_name item) as [name|], (item_lat item) as [lat|],
                 (item_lon item) as [lon|]; cbn [Py.read mbind result_bind];
          split; try (intros [e He]; discriminate He); try by eauto 6.
        intros [Himp|[[e He]|[_ [Hn|[Hn|Hn]]]]]; discriminate.
      * split; [|by exists e]. intros _. right. left. by exists e.
    + split; [by left|by eexists].
  - intros item. rewrite <- truthy_spec. unfold skipped.
    destruct (String.eqb_spec (place_class item) "boundary") as [Hc|Hc];
      destruct (String.eqb_spec (place_type item) "administrative") as [Ht|Ht];
      destruct (truthy (address_country item));
      destruct (display_name item) as [name|];
      cbn [andb Py.read mbind result_bind];
      repeat match goal with |- context [if ?c then _ else _] => destruct c end;
      split; try (intros [e He]; discriminate He);
      try (intros (? & ? & ? & ?); done); eauto.
  - intros Hraise. unfold autocomplete.
    destruct (negb (status_code =? 200)); [reflexivity|].
    by destruct (score_results_raises query data Hraise) as [e ->].
Qed.

End SuggestionFacts.

(** ** The added properties on concrete requests *)

(** A sweep at time 5 of the cache written at time 0, read at time 5. *)
Lemma clear_expired_invisible_witness :
  (CacheManager.get Scenario.json_dumps Scenario.sha256_hexdigest
     Scenario.value_ltb Scenario.ttl 5
     (CacheManager.clear_expired Scenario.ttl (fun _ => 5)
        Scenario.one_entry_cache).2
     Scenario.params_radius_first).1
  = (CacheManager.get Scenario.json_dumps Scenario.sha256_hexdigest
       Scenario.value_ltb Scenario.ttl 5 Scenario.one_entry_cache
       Scenario.params_radius_first).1.
Proof.
  apply clear_expired_invisible. intros name. lia.
Defined.

(** Stored with the radius first, asked with the radius last. *)
Lemma get_set_any_order_witness :
  CacheManager.get Scenario.json_dumps Scenario.sha256_hexdigest
    Scenario.value_ltb Scenario.ttl 1
    Scenario.one_entry_cache Scenario.params_radius_last
  = (Some Scenario.cafe_result, Scenario.one_entry_cache).
Proof.
  apply (get_set_any_order Scenario.json_dumps Scenario.sha256_hexdigest
           Scenario.value_ltb Scenario.ttl 0 1 ∅ Scenario.cafe_result
           Scenario.params_radius_first Scenario.params_radius_last).
  - apply NoDup_cons. split; [|apply NoDup_singleton].
    intros Hin. apply list_elem_of_singleton in Hin. discriminate Hin.
  - apply perm_swap.
  - vm_compute. discriminate.
Defined.

Lemma get_history_chronological_witness :
  HistoryManager.get_history (F:=QFloat.instance) 1 None Scenario.two_entries
  = Py.slice_to 1 (reverse [Scenario.logged_at 1; Scenario.logged_at 2]).
Proof.
  apply (get_history_chronological (F:=QFloat.instance) 1 None Scenario.two_entries).
  cbn [HistoryManager._load_history Scenario.two_entries].
  repeat constructor.
Defined.

(** A first request on empty stores, then a request a few metres away
    one hour later, with other geodata. *)
Lemma repeated_request_witness :
  exists r st1,
    Main.analyze_compute Scenario.quiet_geo = Ok r /\
    Main.analyze_market Scenario.json_dumps Scenario.sha256_hexdigest
      Scenario.value_ltb Scenario.ttl Scenario.noon Scenario.bangkok_cafe
      Scenario.quiet_geo Scenario.empty_stores = Ok (r, st1) /\
    Main.analyze_market Scenario.json_dumps Scenario.sha256_hexdigest
      Scenario.value_ltb Scenario.ttl Scenario.afternoon Scenario.bangkok_cafe_nearby
      Scenario.crowded_geo st1 = Ok (r, st1).
Proof.
  apply repeated_request_served_from_cache.
  - reflexivity.
  - unfold Scenario.bangkok_cafe, Main.BUSINESS_MAPPINGS.
    cbn [Main.req_business_type]. left.
  - vm_compute. reflexivity.
  - vm_compute. discriminate.
Defined.

Lemma fresh_analysis_witness :
  exists r st',
    Main.analyze_market Scenario.json_dumps Scenario.sha256_hexdigest
      Scenario.value_ltb Scenario.ttl Scenario.noon Scenario.bangkok_cafe
      Scenario.quiet_geo Scenario.empty_stores = Ok (r, st') /\
    Main.analyze_compute Scenario.quiet_geo = Ok r /\
    Main.cache st' !!
      CacheManager.cache_path
        (CacheManager._generate_key Scenario.json_dumps Scenario.sha256_hexdigest
           Scenario.value_ltb (Spec.cache_key_params Scenario.bangkok_cafe))
    = Some (CacheManager.Entry (Main.now_set Scenario.noon)
              (Spec.cache_key_params Scenario.bangkok_cafe) r) /\
    HistoryManager._load_history (Main.history st')
    = Py.slice_last 100
        (HistoryManager._load_history (Main.history Scenario.empty_stores)
           ++ [Spec.logged_entry (Main.now_add Scenario.noon) Scenario.bangkok_cafe r]).
Proof.
  apply fresh_analysis_effects.
  - reflexivity.
  - unfold Scenario.bangkok_cafe, Main.BUSINESS_MAPPINGS.
    cbn [Main.req_business_type]. left.
Defined.

(** The fields of [bangkok_cafe], sent without a radius. *)
Lemma validated_request_witness :
  exists r st',
    Main.analyze_market Scenario.json_dumps Scenario.sha256_hexdigest
      Scenario.value_ltb Scenario.ttl Scenario.noon Scenario.bangkok_cafe
      Scenario.quiet_geo Scenario.empty_stores = Ok (r, st').
Proof.
  refine (proj2 (validated_request_is_answered Scenario.json_dumps
                   Scenario.sha256_hexdigest Scenario.value_ltb Scenario.ttl
                   QFloat.leb (137563 # 10000) (1005018 # 10000) "Cafe" None
                   Scenario.bangkok_cafe Scenario.noon Scenario.quiet_geo
                   Scenario.empty_stores _)).
  vm_compute. reflexivity.
Defined.

(** The quiet district: the competitor without a name is listed as
    Unknown; the row tagged school and office counts as Students. *)
Example quiet_district :
  match Main.analyze_compute (F:=QFloat.instance) Scenario.quiet_geo with
  | Ok r =>
      Main.supply_count r = 2%nat /\
      Main.sp_name <$> Main.supply_points r = ["Bean"; "Unknown"] /\
      Main.demand_breakdown r
      = {| Main.bd_office := 1; Main.bd_students := 1;
           Main.bd_residential := 1; Main.bd_transport := 0 |} /\
      Main.growth_status r = Stable /\ Main.construction_count r = 0%nat
  | Raise _ => False
  end.
Proof. vm_compute. repeat split. Qed.
